(** * vibb: path resolution and the configuration pipeline

    A shallow embedding of the request-resolution and data-orchestration
    code of the server ([fetch_page.js], [fetch_data.js], [handle_post.js],
    [render_page.js]) and the properties its specification states.

    JavaScript objects used as maps are [gmap string _]; the page tree is an
    ordered directory tree, because directory-listing order is observable;
    exceptions and the injected logger are threaded through a small monad. *)

From Stdlib Require Import Ascii.
From stdpp Require Import gmap strings list fin_maps pretty.

#[local] Set Warnings "-register-all".

(** ** Strings, as the code uses them *)

Module Str.

(** [s.split("/")]: the pieces between slashes, empty pieces included. *)
Fixpoint split_slash (s : string) : list string :=
  match s with
  | EmptyString => [""]
  | String c r =>
      if Ascii.eqb c "/"%char then "" :: split_slash r
      else match split_slash r with
           | h :: t => String c h :: t
           | [] => [String c ""]
           end
  end.

(** [Boolean(s)] for a string: non-empty. *)
Definition nonempty (s : string) : bool :=
  match s with EmptyString => false | String _ _ => true end.

(** [s.startsWith(c)] and [s.endsWith(c)] for a one-character [c]. *)
Definition startsWithChar (c : ascii) (s : string) : bool :=
  match s with EmptyString => false | String a _ => Ascii.eqb a c end.

Fixpoint endsWithChar (c : ascii) (s : string) : bool :=
  match s with
  | EmptyString => false
  | String a EmptyString => Ascii.eqb a c
  | String _ r => endsWithChar c r
  end.

Fixpoint dropLast (s : string) : string :=
  match s with
  | EmptyString => ""
  | String _ EmptyString => ""
  | String a r => String a (dropLast r)
  end.

(** [s.slice(1, -1)] *)
Definition slice_1_m1 (s : string) : string :=
  match s with EmptyString => "" | String _ r => dropLast r end.

(** does the string contain a slash *)
Fixpoint has_slash (s : string) : bool :=
  match s with
  | EmptyString => false
  | String c r => Ascii.eqb c "/"%char || has_slash r
  end.


(** [s.includes(needle)] *)
Fixpoint includes (needle s : string) : bool :=
  String.prefix needle s
  || match s with
     | EmptyString => false
     | String _ r => includes needle r
     end.

(** [s.replace(pat, "")]: the first occurrence of [pat] removed *)
Fixpoint removeFirst (pat s : string) : string :=
  if String.prefix pat s then String.substring (String.length pat) (String.length s) s
  else match s with
       | EmptyString => ""
       | String c r => String c (removeFirst pat r)
       end.

(** [toLowerCase] and [toUpperCase], on the ASCII letters *)
Definition lowerChar (c : ascii) : ascii :=
  let n := Ascii.nat_of_ascii c in
  if (65 <=? n)%nat && (n <=? 90)%nat then Ascii.ascii_of_nat (n + 32) else c.

Definition upperChar (c : ascii) : ascii :=
  let n := Ascii.nat_of_ascii c in
  if (97 <=? n)%nat && (n <=? 122)%nat then Ascii.ascii_of_nat (n - 32) else c.

Fixpoint toLowerCase (s : string) : string :=
  match s with
  | EmptyString => ""
  | String c r => String (lowerChar c) (toLowerCase r)
  end.

Fixpoint trimStart (s : string) : string :=
  match s with
  | EmptyString => ""
  | String c r => if Ascii.is_space c then trimStart r else s
  end.

(** [s.trim()], on the ASCII white space *)
Definition trim (s : string) : string :=
  String.rev (trimStart (String.rev (trimStart s))).

(** [s.charAt(0).toUpperCase() + s.slice(1)] *)
Definition capitalize (s : string) : string :=
  match s with
  | EmptyString => ""
  | String c r => String (upperChar c) r
  end.

End Str.

(** ** The page tree

    The file system below the server's working directory: a file with its
    text, or a directory with its entries in listing order. *)

Inductive node :=
  | File (content : string)
  | Dir (entries : list (string * node)).

Definition is_dir (n : node) : bool :=
  match n with Dir _ => true | File _ => false end.

(** A name the file system can give an entry: not empty, not [.] or [..],
    no slash inside. *)
Definition valid_name (s : string) : bool :=
  Str.nonempty s && negb (String.eqb s ".") && negb (String.eqb s "..")
  && negb (Str.has_slash s).

Fixpoint wf_node (n : node) : bool :=
  match n with
  | File _ => true
  | Dir es => forallb (fun e => valid_name e.1 && wf_node e.2) es
  end.

(** The entry called [name] in a listing. *)
Fixpoint entry_lookup (name : string) (es : list (string * node)) : option node :=
  match es with
  | [] => None
  | (n, ch) :: r => if String.eqb n name then Some ch else entry_lookup name r
  end.

(** A location is the chain of entries entered from the working directory,
    innermost first. *)
Definition loc := list (string * node).

Definition node_at (root : node) (l : loc) : node :=
  match l with [] => root | (_, n) :: _ => n end.

(** Path resolution as the operating system does it, one component at a
    time: empty components and [.] stay, [..] goes to the parent, a name
    enters the entry of that name; every component but the last must be a
    directory.  Above the working directory the tree is not known and the
    lookup fails. *)
Fixpoint walk (root : node) (l : loc) (comps : list string) : option loc :=
  match comps with
  | [] => Some l
  | c :: rest =>
      match node_at root l with
      | File _ => None
      | Dir es =>
          if String.eqb c "" || String.eqb c "." then walk root l rest
          else if String.eqb c ".." then
            match l with
            | [] => None
            | _ :: up => walk root up rest
            end
          else
            match entry_lookup c es with
            | Some ch => walk root ((c, ch) :: l) rest
            | None => None
            end
      end
  end.

Definition resolve (root : node) (path : string) : option loc :=
  walk root [] (Str.split_slash path).

(** The names from the working directory down to the place a path denotes. *)
Definition canonical (root : node) (path : string) : option (list string) :=
  (fun l : loc => rev (l.*1)) <$> resolve root path.

(** [Deno.stat(path)] succeeds *)
Definition Deno_stat (root : node) (path : string) : bool :=
  match resolve root path with Some _ => true | None => false end.

Record DirEntry := { name : string; isDirectory : bool }.

(** [Deno.readDir(path)]: the entries in listing order; [None] when it throws. *)
Definition Deno_readDir (root : node) (path : string) : option (list DirEntry) :=
  match resolve root path with
  | Some l =>
      match node_at root l with
      | Dir es => Some (map (fun e => {| name := e.1; isDirectory := is_dir e.2 |}) es)
      | File _ => None
      end
  | None => None
  end.

(** [Deno.readTextFile(path)]; [None] when it throws. *)
Definition Deno_readTextFile (root : node) (path : string) : option string :=
  match resolve root path with
  | Some l =>
      match node_at root l with
      | File c => Some c
      | Dir _ => None
      end
  | None => None
  end.

(** ** fetch_page.js: the resolver *)

Record PageMatch := { pagePath : string; params : gmap string string }.

(** [for await (const entry of entries)] with an early [return]: the first
    entry whose body returns a result. *)
Fixpoint first_result {A B} (body : A -> option B) (l : list A) : option B :=
  match l with
  | [] => None
  | x :: r => match body x with Some b => Some b | None => first_result body r end
  end.

Fixpoint searchPath (fs : node) (segments : list string) (currentPath : string)
    (params : gmap string string) : option PageMatch :=
  match segments with
  | [] =>
      let indexPath := currentPath +:+ "/index.html" in
      if Deno_stat fs indexPath
      then Some {| pagePath := indexPath; params := params |}
      else None
  | segment :: remainingSegments =>
      match Deno_readDir fs currentPath with
      | Some entries =>
          first_result (fun entry =>
            if negb (isDirectory entry) then None
            else if String.eqb (name entry) segment then
              searchPath fs remainingSegments (currentPath +:+ "/" +:+ segment) params
            else if Str.startsWithChar "["%char (name entry)
                    && Str.endsWithChar "]"%char (name entry) then
              let paramName := Str.slice_1_m1 (name entry) in
              searchPath fs remainingSegments (currentPath +:+ "/" +:+ name entry)
                (<[paramName := segment]> params)
            else None) entries
      | None => None
      end
  end.

Definition exactPathOf (path : string) : string :=
  "./pages/" +:+ path +:+ "/index.html".

Definition findPageWithParams (fs : node) (path : string) : option PageMatch :=
  let pathSegments := filter (fun s => Str.nonempty s = true) (Str.split_slash path) in
  let exactPath := exactPathOf path in
  if Deno_stat fs exactPath
  then Some {| pagePath := exactPath; params := ∅ |}
  else searchPath fs pathSegments "./pages" ∅.

(** The page tree of the repository's tests: [pages/index.html],
    [pages/about], [pages/[userId]], [pages/test/[id1]/x/[id2]]. *)
Definition page (body : string) : node := Dir [("index.html", File body)].

Definition samplePages : node :=
  Dir [("pages", Dir [
     ("index.html", File "home");
     ("about", page "about");
     ("[userId]", page "user");
     ("test", Dir [("[id1]", Dir [("x", Dir [("[id2]", page "nested")])])])
  ])].


(** A working directory with a [static] directory next to [pages]. *)
Definition escapeTree : node :=
  Dir [("static", page "not a page"); ("pages", Dir [("about", page "about")])].

(** Two routes for the path [x/1]: through the literal directory [x] and
    through the parameter directory [[a]], which the listing gives first. *)
Definition orderTree : node :=
  Dir [("pages", Dir [
     ("[a]", Dir [("[b]", page "by parameter")]);
     ("x", Dir [("[b]", page "by name")])
  ])].

(** [pages/about] listed after [pages/[userId]]. *)
Definition exactTree : node :=
  Dir [("pages", Dir [("[userId]", page "user"); ("about", page "about")])].

(** [pages/[id]/x/[id]]: one parameter name at two depths. *)
Definition rebindTree : node :=
  Dir [("pages", Dir [("[id]", Dir [("x", Dir [("[id]", page "twice")])])])].

(** ** Notions the statements about the resolver use *)

(** a component that names an entry *)
Definition names_entry (c : string) : Prop := c ≠ "" ∧ c ≠ ".".

#[local] Instance names_entry_dec c : Decision (names_entry c).
Proof. unfold names_entry. apply _. Defined.

Definition wf_loc (l : loc) : Prop :=
  Forall (fun e => valid_name e.1 = true ∧ wf_node e.2 = true) l.

(** [currentPath] after descending through the directories [ds] *)
Definition pathUnder (cur : string) (ds : list string) : string :=
  fold_left (fun acc d => acc +:+ "/" +:+ d) ds cur.

(** how one level binds: a directory named as the segment binds nothing,
    any other directory the search enters is a parameter directory *)
Definition bindLevel (p : gmap string string) (segment d : string) : gmap string string :=
  if String.eqb d segment then p else <[Str.slice_1_m1 d := segment]> p.

Fixpoint bindAll (p : gmap string string) (segments ds : list string) : gmap string string :=
  match segments, ds with
  | segment :: segments', d :: ds' => bindAll (bindLevel p segment d) segments' ds'
  | _, _ => p
  end.

(** every directory of [ds] is listed, as a directory, where the search
    finds it *)
Fixpoint listed (fs : node) (cur : string) (ds : list string) : Prop :=
  match ds with
  | [] => True
  | d :: r =>
      (∃ es e, Deno_readDir fs cur = Some es ∧ e ∈ es ∧ name e = d
               ∧ isDirectory e = true)
      ∧ listed fs (cur +:+ "/" +:+ d) r
  end.

(** [segments.join("/")] *)
Fixpoint joinSlash (l : list string) : string :=
  match l with
  | [] => ""
  | [x] => x
  | x :: r => x +:+ "/" +:+ joinSlash r
  end.

(** the location the segments of a path join to under the page root *)
Definition joinedPathOf (path : string) : string :=
  "./pages/" +:+
  joinSlash (filter (fun s => Str.nonempty s = true) (Str.split_slash path))
  +:+ "/index.html".

(** ** JavaScript values

    The data the pipeline handles: what the YAML and JSON parsers return,
    what handlers receive and return.  Numbers are integers here; objects
    are finite maps from property names to values, so the order of keys is
    not part of the model (it only shows in logged key lists and in the
    serialized text, neither of which a statement below depends on). *)

Inductive value :=
  | VUndefined
  | VNull
  | VBool (b : bool)
  | VNum (z : Z)
  | VStr (s : string)
  | VArr (l : list value)
  | VObj (m : gmap string value).

(** [Boolean(v)] *)
Definition truthy (v : value) : bool :=
  match v with
  | VUndefined | VNull => false
  | VBool b => b
  | VNum z => negb (z =? 0)%Z
  | VStr s => Str.nonempty s
  | VArr _ | VObj _ => true
  end.

(** [v !== undefined] *)
Definition is_defined (v : value) : bool :=
  match v with VUndefined => false | _ => true end.

(** [String(v)], as template literals and property keys apply it *)
Fixpoint to_string (v : value) : string :=
  match v with
  | VUndefined => "undefined"
  | VNull => "null"
  | VBool b => if b then "true" else "false"
  | VNum z => pretty z
  | VStr s => s
  | VArr l =>
      (fix join (l : list value) : string :=
         match l with
         | [] => ""
         | x :: r =>
             let sx := match x with VUndefined | VNull => "" | _ => to_string x end in
             match r with [] => sx | _ => sx +:+ "," +:+ join r end
         end) l
  | VObj _ => "[object Object]"
  end.

(** the characters of a string, each as a string *)
Fixpoint chars (s : string) : list string :=
  match s with
  | EmptyString => []
  | String c r => String c "" :: chars r
  end.

(** the indexed properties of an array or a string *)
Definition indexed {A} (l : list A) : gmap string A :=
  list_to_map (imap (fun i x => (pretty i, x)) l).

(** [{...v}]: the own enumerable properties of a value *)
Definition spread (v : value) : gmap string value :=
  match v with
  | VObj m => m
  | VArr l => indexed l
  | VStr s => VStr <$> indexed (chars s)
  | _ => ∅
  end.

(** ** Exceptions and the log *)

(** What a [throw] carries: an [Error] object (of some class, with its
    message), or any other value. *)
Inductive thrown :=
  | ThrownError (class message : string)
  | ThrownValue (v : value).

Inductive Res (A : Type) :=
  | Ok (a : A)
  | Throw (t : thrown).
Arguments Ok {A} a.
Arguments Throw {A} t.

Inductive Level := level_info | level_warn | level_error.

Record LogEntry := { level : Level; message : string; data : value }.

(** A computation: the entries it hands to [log], in order, and how it
    ends.  The injected [log] itself always returns. *)
Definition M (A : Type) : Type := (list LogEntry * Res A)%type.

Definition ret {A} (a : A) : M A := ([], Ok a).

Definition bind {A B} (m : M A) (f : A → M B) : M B :=
  match m with
  | (l, Ok a) => let '(l', r) := f a in (l ++ l', r)
  | (l, Throw t) => (l, Throw t)
  end.

Definition throw {A} (t : thrown) : M A := ([], Throw t).

Definition log (lv : Level) (msg : string) (d : value) : M unit :=
  ([{| level := lv; message := msg; data := d |}], Ok tt).

(** [try { m } catch (e) { handler e }] *)
Definition try_catch {A} (m : M A) (handler : thrown → M A) : M A :=
  match m with
  | (l, Ok a) => (l, Ok a)
  | (l, Throw t) => let '(l', r) := handler t in (l ++ l', r)
  end.

Definition lift {A} (r : Res A) : M A := ([], r).

Definition result {A} (m : M A) : Res A := m.2.
Definition logged {A} (m : M A) : list LogEntry := m.1.

Declare Scope js_scope.
Delimit Scope js_scope with js.
Notation "'let*' x ':=' m 'in' k" := (bind m (fun x => k))
  (at level 10, x pattern, m at level 100, k at level 200,
   format "'[' 'let*'  x  ':='  m  'in' ']' '/' k") : js_scope.
Notation "m ';;' k" := (bind m (fun _ => k))
  (at level 100, k at level 200, right associativity,
   format "'[' m ';;' ']' '/' k") : js_scope.
#[local] Open Scope js_scope.

Definition TypeError (msg : string) : thrown := ThrownError "TypeError" msg.

(** [v[k]] for a property name [k]: reading a property of [null] or
    [undefined] throws. *)
Definition get_prop (v : value) (k : string) : M value :=
  match v with
  | VUndefined => throw (TypeError ("Cannot read properties of undefined (reading '" +:+ k +:+ "')"))
  | VNull => throw (TypeError ("Cannot read properties of null (reading '" +:+ k +:+ "')"))
  | VObj m => ret (default VUndefined (m !! k))
  | VArr l =>
      if String.eqb k "length" then ret (VNum (Z.of_nat (length l)))
      else ret (default VUndefined (indexed l !! k))
  | VStr s =>
      if String.eqb k "length" then ret (VNum (Z.of_nat (String.length s)))
      else ret (default VUndefined (VStr <$> indexed (chars s) !! k))
  | VBool _ | VNum _ => ret VUndefined
  end.

(** [error.message] in a [catch (error)] block *)
Definition error_message (e : thrown) : M value :=
  match e with
  | ThrownError _ msg => ret (VStr msg)
  | ThrownValue v => get_prop v "message"
  end.

(** [Object.keys(v)] *)
Definition Object_keys (v : value) : M (list string) :=
  match v with
  | VUndefined | VNull => throw (TypeError "Cannot convert undefined or null to object")
  | _ => ret ((map_to_list (spread v)).*1)
  end.

Definition strings (l : list string) : value := VArr (VStr <$> l).

(** ** The libraries

    The template engine, the YAML parser and the platform's body decoders
    are collaborators of the code: each either returns or raises an [Error]
    object. *)

Inductive LibRes (A : Type) :=
  | Returns (a : A)
  | Raises (class message : string).
Arguments Returns {A} a.
Arguments Raises {A} class message.

Definition call {A} (r : LibRes A) : M A :=
  match r with
  | Returns a => ret a
  | Raises c msg => throw (ThrownError c msg)
  end.

(** a field of a multipart body *)
Inductive FormField :=
  | TextField (text : string)
  | FileField (filename type : string).

Record Request := { contentType : option string; body : string }.

Record Platform := {
  (** [handlebars.compile(template)(data)] in [fetch_data.js] and
      [handle_post.js], whose engines have no partials *)
  handlebars : string → value → LibRes string;
  (** the same in [render_page.js], whose engine holds the layouts and
      partials loaded at start *)
  handlebars_page : string → value → LibRes string;
  (** [parse] of std/yaml *)
  yaml_parse : string → LibRes value;
  JSON_parse : string → LibRes value;
  JSON_stringify : value → string;
  (** the pairs [new URLSearchParams(body)] iterates over *)
  URLSearchParams : string → list (string * string);
  (** the fields [await req.formData()] iterates over *)
  req_formData : Request → LibRes (list (string * FormField));
}.

(** A handler of the registry: called with the operation and the context,
    it returns a value or throws (an [async] handler whose promise rejects
    throws the reason at the [await]).  The registry is the finite map of
    the entries it was given; the names every object inherits are not part
    of it. *)
Abbreviation Strategy := (value → value → Res value).

(** ** fetch_data.js: the read pipeline *)

Definition executeFetchStrategy (config context : value)
    (dataStrategies : gmap string Strategy) : M value :=
  let* type := get_prop config "type" in
  match dataStrategies !! to_string type with
  | None =>
      log level_warn ("Unknown fetch strategy: " +:+ to_string type)
        (VObj {["type" := type]});;
      ret VUndefined
  | Some strategy =>
      try_catch (lift (strategy config context))
        (fun error =>
           let* msg := error_message error in
           log level_error ("Strategy execution failed: " +:+ to_string msg)
             (VObj (<["error" := msg]> {["type" := type]}));;
           ret VUndefined)
  end.

(** [if (config.key && result !== undefined) results[config.key] = result] *)
Definition collect (config result : value) (results : gmap string value)
    : M (gmap string value) :=
  let* key := get_prop config "key" in
  ret (if truthy key && is_defined result
       then <[to_string key := result]> results
       else results).

Fixpoint fetchEach (configs : list value) (context : value)
    (dataStrategies : gmap string Strategy) (results : gmap string value)
    : M (gmap string value) :=
  match configs with
  | [] => ret results
  | config :: rest =>
      let* result := executeFetchStrategy config context dataStrategies in
      let* results := collect config result results in
      fetchEach rest context dataStrategies results
  end.

Definition fetchDataStrategies (fetchConfig context : value)
    (dataStrategies : gmap string Strategy) : M (gmap string value) :=
  if negb (truthy fetchConfig) then ret ∅
  else match fetchConfig with
       | VArr configs => fetchEach configs context dataStrategies ∅
       | VObj _ =>
           let* result := executeFetchStrategy fetchConfig context dataStrategies in
           collect fetchConfig result ∅
       | _ => ret ∅
       end.

(** [!!yamlContent] for a text or [null] *)
Definition has_text (t : option string) : bool :=
  match t with Some s => Str.nonempty s | None => false end.

(** [{ params, query }] *)
Definition readContext (params query : value) : gmap string value :=
  <["query" := query]> {["params" := params]}.

Definition fetchData (P : Platform) (yamlContent : option string)
    (params query : value) (dataStrategies : gmap string Strategy) : M value :=
  if negb (has_text yamlContent) then ret (VObj (readContext params query))
  else
    let yamlContent := default "" yamlContent in
    log level_info "Processing YAML content" (VObj {["hasContent" := VBool true]});;
    try_catch
      (let* processedYaml :=
         call (handlebars P yamlContent (VObj (readContext params query))) in
       log level_info "Processed YAML template"
         (VObj {["processedLength" := VNum (Z.of_nat (String.length processedYaml))]});;
       let* yamlData := call (yaml_parse P processedYaml) in
       let* fetch_data := get_prop yamlData "fetch_data" in
       log level_info "Parsed YAML data"
         (VObj {["hasFetchData" := VBool (truthy fetch_data)]});;
       if truthy fetch_data then
         log level_info "Fetching data using strategies" (VObj ∅);;
         let* fetchedData :=
           fetchDataStrategies fetch_data (VObj (readContext params query))
             dataStrategies in
         let restYamlData := delete "fetch_data" (spread yamlData) in
         let finalData :=
           <["query" := query]> (<["params" := params]> (fetchedData ∪ restYamlData)) in
         let* dataKeys := Object_keys (VObj finalData) in
         log level_info "Final data after fetch" (VObj {["dataKeys" := strings dataKeys]});;
         ret (VObj finalData)
       else
         log level_info "No fetch_data found, returning parsed YAML" (VObj ∅);;
         ret (VObj (<["query" := query]> (<["params" := params]> (spread yamlData)))))
      (fun error =>
         let* msg := error_message error in
         log level_error ("YAML processing failed: " +:+ to_string msg)
           (VObj {["error" := msg]});;
         ret (VObj (readContext params query))).

(** ** handle_post.js: the write pipeline *)

Definition executeSendStrategy (config context : value)
    (dataStrategies : gmap string Strategy) : M value :=
  let* type := get_prop config "type" in
  match dataStrategies !! to_string type with
  | None =>
      log level_warn ("Unknown send strategy: " +:+ to_string type)
        (VObj {["type" := type]});;
      ret VUndefined
  | Some strategy =>
      try_catch (lift (strategy config context))
        (fun error =>
           let* msg := error_message error in
           log level_error ("Send strategy execution failed: " +:+ to_string msg)
             (VObj (<["error" := msg]> {["type" := type]}));;
           ret VUndefined)
  end.

Fixpoint sendEach (configs : list value) (context : value)
    (dataStrategies : gmap string Strategy) (results : gmap string value)
    : M (gmap string value) :=
  match configs with
  | [] => ret results
  | config :: rest =>
      let* result := executeSendStrategy config context dataStrategies in
      let* results := collect config result results in
      sendEach rest context dataStrategies results
  end.

Definition sendDataStrategies (sendConfig context : value)
    (dataStrategies : gmap string Strategy) : M (gmap string value) :=
  if negb (truthy sendConfig) then ret ∅
  else match sendConfig with
       | VArr configs => sendEach configs context dataStrategies ∅
       | VObj _ =>
           let* result := executeSendStrategy sendConfig context dataStrategies in
           collect sendConfig result ∅
       | _ => ret ∅
       end.

(** [{ params, query, formData }] *)
Definition writeContext (params query formData : value) : gmap string value :=
  <["formData" := formData]> (<["query" := query]> {["params" := params]}).

Definition handlePost (P : Platform) (yamlContent : option string)
    (params query formData : value) (dataStrategies : gmap string Strategy)
    : M value :=
  if negb (has_text yamlContent) then ret (VObj (writeContext params query formData))
  else
    let yamlContent := default "" yamlContent in
    log level_info "Processing POST YAML content" (VObj {["hasContent" := VBool true]});;
    try_catch
      (let* processedYaml :=
         call (handlebars P yamlContent (VObj (writeContext params query formData))) in
       log level_info "Processed POST YAML template"
         (VObj {["processedLength" := VNum (Z.of_nat (String.length processedYaml))]});;
       let* yamlData := call (yaml_parse P processedYaml) in
       let* send_data := get_prop yamlData "send_data" in
       log level_info "Parsed POST YAML data"
         (VObj {["hasSendData" := VBool (truthy send_data)]});;
       if truthy send_data then
         log level_info "Sending data using strategies" (VObj ∅);;
         let* sentData :=
           sendDataStrategies send_data (VObj (writeContext params query formData))
             dataStrategies in
         let restYamlData := delete "send_data" (spread yamlData) in
         let finalData :=
           <["formData" := formData]> (<["query" := query]>
             (<["params" := params]> (sentData ∪ restYamlData))) in
         let* dataKeys := Object_keys (VObj finalData) in
         log level_info "Final data after send" (VObj {["dataKeys" := strings dataKeys]});;
         ret (VObj finalData)
       else
         log level_info "No send_data found, returning parsed YAML" (VObj ∅);;
         ret (VObj (<["formData" := formData]> (<["query" := query]>
                      (<["params" := params]> (spread yamlData))))))
      (fun error =>
         let* msg := error_message error in
         log level_error ("POST YAML processing failed: " +:+ to_string msg)
           (VObj {["error" := msg]});;
         ret (VObj (writeContext params query formData))).

(** ** fetch_page.js: loading a page *)

(** [await Deno.readTextFile(path)], throwing where the file system
    refuses (the wording of the message is the platform's). *)
Definition readTextFile (fs : node) (path : string) : M string :=
  match Deno_readTextFile fs path with
  | Some text => ret text
  | None =>
      throw (ThrownError "Error"
               (if Deno_stat fs path
                then "Is a directory (os error 21): readfile '" +:+ path +:+ "'"
                else "No such file or directory (os error 2): readfile '" +:+ path +:+ "'"))
  end.

(** [pagePath.replace("/index.html", "")] *)
Definition pageDirOf (pagePath : string) : string :=
  Str.removeFirst "/index.html" pagePath.

Definition paramsValue (params : gmap string string) : value :=
  VObj (VStr <$> params).

Inductive PageResult :=
  | NotFound
  | Found (pageContent : string) (yamlContent : option string)
      (params : gmap string string).

Definition fetchPage (fs : node) (path : string) : M PageResult :=
  log level_info ("Fetching page for path: " +:+ path) (VObj {["path" := VStr path]});;
  match findPageWithParams fs path with
  | None =>
      log level_warn ("Page not found for path: " +:+ path)
        (VObj {["path" := VStr path]});;
      ret NotFound
  | Some found =>
      let pagePath := pagePath found in
      let params := params found in
      log level_info "Found page with parameters"
        (VObj (<["params" := paramsValue params]> {["pagePath" := VStr pagePath]}));;
      try_catch
        (let* pageContent := readTextFile fs pagePath in
         log level_info "Loaded page content"
           (VObj {["contentLength" := VNum (Z.of_nat (String.length pageContent))]});;
         let* yamlContent :=
           try_catch
             (let pageDir := pageDirOf pagePath in
              let yamlPath := pageDir +:+ "/get.yaml" in
              let* text := readTextFile fs yamlPath in
              log level_info "Found YAML data" (VObj {["yamlPath" := VStr yamlPath]});;
              ret (Some text))
             (fun _ => log level_info "No YAML data found" (VObj ∅);; ret None) in
         ret (Found pageContent yamlContent params))
        (fun error =>
           let* msg := error_message error in
           log level_error "Error fetching page" (VObj {["error" := msg]});;
           ret NotFound)
  end.

(** ** render_page.js: the read flow *)

Record Response := {
  status : nat;
  contentTypeHeader : option string;
  responseBody : string;
}.

Definition isPureHtml (pageContent : string) : bool :=
  String.prefix "<!doctype html" (Str.toLowerCase (Str.trim pageContent)).

Definition titleOf (path : string) : string :=
  if Str.nonempty path then Str.capitalize path else "Home".

(** the default of the parameter: [query = {}] *)
Definition defaultQuery (query : value) : value :=
  match query with VUndefined => VObj ∅ | _ => query end.

(** [{ title, body, ...data }] *)
Definition withTitleAndBody (path body : string) (data : value) : gmap string value :=
  spread data ∪ <["body" := VStr body]> {["title" := VStr (titleOf path)]}.

(** The templates are loaded once, before the first page is rendered; the
    engine that holds them is [handlebars_page]. *)
Definition renderPage (P : Platform) (fs : node) (path : string) (query : value)
    (dataStrategies : gmap string Strategy) : M Response :=
  let query := defaultQuery query in
  try_catch
    (log level_info ("Rendering page for path: " +:+ path)
       (VObj {["path" := VStr path]});;
     let* pageResult := fetchPage fs path in
     match pageResult with
     | NotFound =>
         log level_warn ("Page not found for path: " +:+ path)
           (VObj {["path" := VStr path]});;
         ret {| status := 404; contentTypeHeader := None;
                responseBody := "Page not found" |}
     | Found pageContent yamlContent params =>
         let params := paramsValue params in
         let* data :=
           if has_text yamlContent
           then fetchData P yamlContent params query dataStrategies
           else
             log level_info "No YAML data found, serving with parameters and query only"
               (VObj (readContext params query));;
             ret (VObj (readContext params query)) in
         if isPureHtml pageContent then
           log level_info "Serving pure HTML file directly"
             (VObj {["path" := VStr path]});;
           ret {| status := 200; contentTypeHeader := Some "text/html";
                  responseBody := pageContent |}
         else
           let templateData := withTitleAndBody path pageContent data in
           let* dataKeys := Object_keys (VObj templateData) in
           log level_info "Rendering with layout"
             (VObj {["dataKeys" := strings dataKeys]});;
           let* renderedBody := call (handlebars_page P pageContent data) in
           let layoutData := withTitleAndBody path renderedBody data in
           let* html := call (handlebars_page P "{{> layout}}" (VObj layoutData)) in
           ret {| status := 200; contentTypeHeader := Some "text/html";
                  responseBody := html |}
     end)
    (fun error =>
       let* msg := error_message error in
       log level_error "Error rendering page" (VObj {["error" := msg]});;
       ret {| status := 500; contentTypeHeader := None;
              responseBody := "Internal server error: " +:+ to_string msg |}).

(** ** handle_post.js: the write flow *)

Definition isPostAllowed (fs : node) (pagePath : string) : bool :=
  Deno_stat fs (pageDirOf pagePath +:+ "/post.yaml").

Definition loadPostYaml (fs : node) (pagePath : string) : option string :=
  Deno_readTextFile fs (pageDirOf pagePath +:+ "/post.yaml").

(** [contentType?.includes(kind)] *)
Definition declares (contentType : option string) (kind : string) : bool :=
  match contentType with
  | Some t => Str.includes kind t
  | None => false
  end.

Definition fieldValue (f : FormField) : value :=
  match f with
  | TextField text => VStr text
  | FileField filename type =>
      VObj (<["type" := VStr type]> {["filename" := VStr filename]})
  end.

(** [for (const [key, value] of pairs) result[key] = value] *)
Definition assignAll {A} (f : A → value) (pairs : list (string * A))
    : gmap string value :=
  fold_left (fun result kv => <[kv.1 := f kv.2]> result) pairs ∅.

Definition parseFormData (P : Platform) (req : Request) : M value :=
  if declares (contentType req) "application/json" then
    try_catch (call (JSON_parse P (body req))) (fun _ => ret (VObj ∅))
  else if declares (contentType req) "application/x-www-form-urlencoded" then
    ret (VObj (assignAll VStr (URLSearchParams P (body req))))
  else if declares (contentType req) "multipart/form-data" then
    let* formData := call (req_formData P req) in
    ret (VObj (assignAll fieldValue formData))
  else ret (VObj ∅).

Definition handlePostRequest (P : Platform) (fs : node) (path : string)
    (req : Request) (dataStrategies : gmap string Strategy) : M Response :=
  log level_info ("Handling POST request for path: " +:+ path)
    (VObj {["path" := VStr path]});;
  match findPageWithParams fs path with
  | None =>
      log level_warn ("Page not found for POST: " +:+ path)
        (VObj {["path" := VStr path]});;
      ret {| status := 404; contentTypeHeader := None;
             responseBody := "Page not found" |}
  | Some found =>
      let pagePath := pagePath found in
      let params := paramsValue (params found) in
      let postAllowed := isPostAllowed fs pagePath in
      log level_info "POST allowed check"
        (VObj (<["postAllowed" := VBool postAllowed]>
                 (<["path" := VStr path]> {["pagePath" := VStr pagePath]})));;
      if negb postAllowed then
        log level_warn ("POST not allowed for path: " +:+ path)
          (VObj (<["path" := VStr path]> {["pagePath" := VStr pagePath]}));;
        ret {| status := 405; contentTypeHeader := None;
               responseBody := "Method not allowed" |}
      else
        let* formData := parseFormData P req in
        let* formDataKeys := Object_keys formData in
        log level_info "Parsed form data"
          (VObj {["formDataKeys" := strings formDataKeys]});;
        let postYamlContent := loadPostYaml fs pagePath in
        let* data :=
          if has_text postYamlContent
          then handlePost P postYamlContent params (VObj ∅) formData dataStrategies
          else
            log level_warn "No post.yaml found, but POST was allowed" (VObj ∅);;
            ret (VObj (writeContext params (VObj ∅) formData)) in
        ret {| status := 200; contentTypeHeader := Some "application/json";
               responseBody := JSON_stringify P data |}
  end.

(** ** Test doubles

    The handlers of the repository's tests, [test] and [error], and two
    more: one whose promise rejects without a reason, one that returns
    nothing. *)

Definition testStrategy : Strategy := fun config context =>
  result (let* v := get_prop config "value" in
          let* params := get_prop context "params" in
          let* id := get_prop params "id" in
          ret (VObj {["result" := VStr ("test-" +:+ to_string v +:+ "-" +:+ to_string id)]})).

Definition errorStrategy : Strategy := fun _ _ =>
  Throw (ThrownError "Error" "Test error").

Definition rejectStrategy : Strategy := fun _ _ =>
  Throw (ThrownValue VUndefined).

Definition silentStrategy : Strategy := fun _ _ => Ok VUndefined.

Definition mockDataStrategies : gmap string Strategy :=
  <["silent" := silentStrategy]> (<["reject" := rejectStrategy]>
    (<["error" := errorStrategy]> {["test" := testStrategy]})).

Definition operation (type key v : string) : value :=
  VObj (<["value" := VStr v]> (<["key" := VStr key]> {["type" := VStr type]})).

(** The documents of the examples, by their text, with what the YAML
    parser makes of them. *)
Definition sampleDocuments : list (string * value) := [
  ("name: Test", VObj {["name" := VStr "Test"]});
  ("{name: Test, fetch_data: null}",
     VObj (<["fetch_data" := VNull]> {["name" := VStr "Test"]}));
  ("{name: Test, send_data: null}",
     VObj (<["send_data" := VNull]> {["name" := VStr "Test"]}));
  ("{name: Test, params: x, fetch_data: {type: test, key: testData, value: config1}}",
     VObj (<["fetch_data" := operation "test" "testData" "config1"]>
             (<["params" := VStr "x"]> {["name" := VStr "Test"]})));
  ("{name: Test, send_data: {type: test, key: testData, value: config1}}",
     VObj (<["send_data" := operation "test" "testData" "config1"]>
             {["name" := VStr "Test"]}));
  ("{fetch_data: [{type: test, key: k, value: first}, {type: test, key: k, value: second}]}",
     VObj {["fetch_data" := VArr [operation "test" "k" "first";
                                   operation "test" "k" "second"]]});
  ("{name: Test, fetch_data: {type: reject, key: testData, value: config1}}",
     VObj (<["fetch_data" := operation "reject" "testData" "config1"]>
             {["name" := VStr "Test"]}))
].

Fixpoint textLookup {A} (text : string) (table : list (string * A)) : option A :=
  match table with
  | [] => None
  | (t, a) :: r => if String.eqb t text then Some a else textLookup text r
  end.

(** A platform for the examples.  Its libraries answer as the real ones do
    on the texts the examples use: templates without expressions render
    to themselves, the sample documents parse to their trees, the JSON
    text [null] is [null], a multipart body without its boundary is
    refused.  Nothing else is asked of it. *)
Definition samplePlatform : Platform := {|
  handlebars := fun template _ => Returns template;
  handlebars_page := fun template _ =>
    if Str.includes "{{" template
    then Raises "Error" "The partial layout could not be found"
    else Returns template;
  yaml_parse := fun text =>
    match textLookup text sampleDocuments with
    | Some doc => Returns doc
    | None => Raises "YAMLError" "bad indentation of a mapping entry"
    end;
  JSON_parse := fun text =>
    if String.eqb text "null" then Returns VNull
    else Raises "SyntaxError" "Unexpected token";
  JSON_stringify := fun _ => "";
  URLSearchParams := fun _ => [];
  req_formData := fun _ => Raises "TypeError" "Unable to parse body as form data";
|}.

(** A page with a write-config, as [pages/form] of the repository. *)
Definition formTree : node :=
  Dir [("pages", Dir [
     ("form", Dir [("index.html", File "<form></form>");
                   ("post.yaml", File "name: Test")])
  ])].

(** A page whose [index.html] cannot be read as a file. *)
Definition unreadableTree : node :=
  Dir [("pages", Dir [("about", Dir [("index.html", Dir [])])])].

(** A page whose body is a template; the engine of [samplePlatform] has no
    layout. *)
Definition templateTree : node :=
  Dir [("pages", Dir [("about", page "<h1>About</h1>")])].

(** The texts and the context of the examples. *)
Definition readConfigText : string :=
  "{name: Test, params: x, fetch_data: {type: test, key: testData, value: config1}}".

Definition writeConfigText : string :=
  "{name: Test, send_data: {type: test, key: testData, value: config1}}".

Definition twoOperationsText : string :=
  "{fetch_data: [{type: test, key: k, value: first}, {type: test, key: k, value: second}]}".

Definition rejectingText : string :=
  "{name: Test, fetch_data: {type: reject, key: testData, value: config1}}".

Definition sampleParams : value := VObj {["id" := VStr "123"]}.

Definition testResult (v : string) : value :=
  VObj {["result" := VStr ("test-" +:+ v +:+ "-123")]}.

(** A self-contained page next to a read-config that does not parse. *)
Definition badConfigTree : node :=
  Dir [("pages", Dir [
     ("about", Dir [("index.html", File "<!doctype html><p>About</p>");
                    ("get.yaml", File "invalid: yaml: content:")])
  ])].

(** ** Notions the statements about the pipeline use *)

(** A computation that, when it throws, throws an [Error] object. *)
Definition throws_errors {A} (m : M A) : Prop :=
  ∀ v, result m ≠ Throw (ThrownValue v).

(** what a run of the read pipeline returns, by what its steps do *)
Definition fetchDataOutcome (P : Platform) (text : string) (params query : value)
    (ds : gmap string Strategy) : gmap string value :=
  let context := readContext params query in
  match handlebars P text (VObj context) with
  | Raises _ _ => context
  | Returns expanded =>
      match yaml_parse P expanded with
      | Raises _ _ => context
      | Returns doc =>
          match result (get_prop doc "fetch_data") with
          | Throw _ => context
          | Ok fetch_data =>
              if truthy fetch_data then
                match result (fetchDataStrategies fetch_data (VObj context) ds) with
                | Ok fetched =>
                    <["query" := query]> (<["params" := params]>
                      (fetched ∪ delete "fetch_data" (spread doc)))
                | Throw _ => context
                end
              else <["query" := query]> (<["params" := params]> (spread doc))
          end
      end
  end.

Definition handlePostOutcome (P : Platform) (text : string)
    (params query formData : value) (ds : gmap string Strategy)
    : gmap string value :=
  let context := writeContext params query formData in
  match handlebars P text (VObj context) with
  | Raises _ _ => context
  | Returns expanded =>
      match yaml_parse P expanded with
      | Raises _ _ => context
      | Returns doc =>
          match result (get_prop doc "send_data") with
          | Throw _ => context
          | Ok send_data =>
              if truthy send_data then
                match result (sendDataStrategies send_data (VObj context) ds) with
                | Ok sent =>
                    <["formData" := formData]> (<["query" := query]>
                      (<["params" := params]>
                         (sent ∪ delete "send_data" (spread doc))))
                | Throw _ => context
                end
              else <["formData" := formData]> (<["query" := query]>
                     (<["params" := params]> (spread doc)))
          end
      end
  end.

(** [{...a, ...b, ...}]: a shallow merge, left to right, later sources
    winning *)
Definition shallowMerge (sources : list (gmap string value)) : gmap string value :=
  fold_left (fun acc src => src ∪ acc) sources ∅.

(** what an operation contributes to the results of the read pipeline: its
    key and its result, when the key is set and the result is defined *)
Definition collected (config context : value) (ds : gmap string Strategy)
    : option (string * value) :=
  match result (executeFetchStrategy config context ds),
        result (get_prop config "key") with
  | Ok r, Ok key =>
      if truthy key && is_defined r then Some (to_string key, r) else None
  | _, _ => None
  end.

(** the data a found page is rendered with: the output of the read
    pipeline when a read-config can be loaded and has text, the context
    otherwise *)
Definition pageData (P : Platform) (fs : node) (found : PageMatch) (query : value)
    (ds : gmap string Strategy) : value :=
  let params := paramsValue (params found) in
  match Deno_readTextFile fs (pageDirOf (pagePath found) +:+ "/get.yaml") with
  | Some text =>
      if Str.nonempty text
      then VObj (fetchDataOutcome P text params query ds)
      else VObj (readContext params query)
  | None => VObj (readContext params query)
  end.

Definition notFoundResponse : Response :=
  {| status := 404; contentTypeHeader := None; responseBody := "Page not found" |}.

Definition htmlResponse (html : string) : Response :=
  {| status := 200; contentTypeHeader := Some "text/html"; responseBody := html |}.

Definition serverErrorResponse (msg : string) : Response :=
  {| status := 500; contentTypeHeader := None;
     responseBody := "Internal server error: " +:+ msg |}.

(** the results after one more operation *)
Definition mergeCollected (context : value) (ds : gmap string Strategy)
    (results : gmap string value) (config : value) : gmap string value :=
  match collected config context ds with
  | Some (k, r) => <[k := r]> results
  | None => results
  end.

(** ** Routes

    What the recursive search looks for: one directory per segment, each
    listed where the search stands and either named as the segment or a
    parameter directory, with a content file at the end. *)

(** a parameter directory: [name.startsWith("[") && name.endsWith("]")] *)
Definition bracketed (d : string) : bool :=
  Str.startsWithChar "[" d && Str.endsWithChar "]" d.

Definition enters (segment d : string) : Prop :=
  d = segment ∨ bracketed d = true.

Fixpoint route (fs : node) (cur : string) (segments ds : list string) : Prop :=
  match segments, ds with
  | [], [] => Deno_stat fs (cur +:+ "/index.html") = true
  | segment :: segments', d :: ds' =>
      (∃ es e, Deno_readDir fs cur = Some es ∧ e ∈ es ∧ name e = d
               ∧ isDirectory e = true)
      ∧ enters segment d
      ∧ route fs (cur +:+ "/" +:+ d) segments' ds'
  | _, _ => False
  end.

(** [path.split("/").filter(Boolean)] *)
Definition pathSegmentsOf (path : string) : list string :=
  filter (fun s => Str.nonempty s = true) (Str.split_slash path).

(** ** Notions for the decoded form *)

(** the value of the last pair under a key *)
Fixpoint lastValue {A} (k : string) (pairs : list (string * A)) : option A :=
  match pairs with
  | [] => None
  | (k', a) :: rest =>
      match lastValue k rest with
      | Some b => Some b
      | None => if String.eqb k' k then Some a else None
      end
  end.

Definition methodNotAllowedResponse : Response :=
  {| status := 405; contentTypeHeader := None;
     responseBody := "Method not allowed" |}.

Definition jsonResponse (P : Platform) (data : value) : Response :=
  {| status := 200; contentTypeHeader := Some "application/json";
     responseBody := JSON_stringify P data |}.

(** A platform that decodes two form bodies; a multipart body stands here
    for the fields the platform reads from it. *)
Definition formPlatform : Platform := {|
  handlebars := handlebars samplePlatform;
  handlebars_page := handlebars_page samplePlatform;
  yaml_parse := yaml_parse samplePlatform;
  JSON_parse := JSON_parse samplePlatform;
  JSON_stringify := JSON_stringify samplePlatform;
  URLSearchParams := fun text =>
    if String.eqb text "name=First&age=25&name=Second"
    then [("name", "First"); ("age", "25"); ("name", "Second")]
    else [];
  req_formData := fun req =>
    if String.eqb (body req) "name, avatar"
    then Returns [("name", TextField "Test User");
                  ("avatar", FileField "me.png" "image/png")]
    else Raises "TypeError" "Unable to parse body as form data";
|}.

(** a string of white space only *)
Fixpoint blank (s : string) : bool :=
  match s with
  | EmptyString => true
  | String c r => Ascii.is_space c && blank r
  end.

(** ** request_strategy.js and sqlite_strategy.js: the server's handlers

    The network and the store are collaborators: [fetch] answers with a
    response or raises, the query on the (lazily opened, process-wide)
    connection returns rows or raises.  What a call changes in a backend
    is not part of the model. *)

Record FetchOptions := {
  fetchMethod : string;
  fetchHeaders : value;
  fetchBody : option value;
}.

Record FetchResponse := {
  fetchStatus : nat;
  fetchStatusText : string;
  fetchContentType : option string;
  fetchText : string;
}.

(** [response.ok] *)
Definition fetchOk (r : FetchResponse) : bool :=
  (200 <=? fetchStatus r)%nat && (fetchStatus r <=? 299)%nat.

Record Backends := {
  fetch : value → FetchOptions → LibRes FetchResponse;
  (** [getDatabase().query(sql, parameters)]: the rows, each the list of
      its column values *)
  db_query : value → value → LibRes (list (list value));
}.

Fixpoint toUpperCase (s : string) : string :=
  match s with
  | EmptyString => ""
  | String c r => String (Str.upperChar c) (toUpperCase r)
  end.

(** a destructuring default: [{ name = fallback } = config] *)
Definition orDefault (v fallback : value) : value :=
  match v with VUndefined => fallback | _ => v end.

(** [method.toUpperCase()] *)
Definition upperMethod (method : value) : M string :=
  match method with
  | VStr s => ret (toUpperCase s)
  | VUndefined =>
      throw (TypeError "Cannot read properties of undefined (reading 'toUpperCase')")
  | VNull =>
      throw (TypeError "Cannot read properties of null (reading 'toUpperCase')")
  | _ => throw (TypeError "method.toUpperCase is not a function")
  end.

(** [response.json()] parses the text of the answer as [JSON.parse] does;
    the [catch] of the source logs to the console and throws the error on. *)
Definition requestStrategy (P : Platform) (B : Backends) : Strategy :=
  fun config _ =>
    result
      (let* url := get_prop config "url" in
       let* method := get_prop config "method" in
       let* headers := get_prop config "headers" in
       let* body := get_prop config "body" in
       let method := orDefault method (VStr "GET") in
       let headers := orDefault headers (VObj ∅) in
       let* method := upperMethod method in
       let requestOptions :=
         {| fetchMethod := method; fetchHeaders := headers;
            fetchBody := if truthy body then Some body else None |} in
       let* response := call (fetch B url requestOptions) in
       if negb (fetchOk response) then
         throw (ThrownError "Error"
                  ("HTTP " +:+ pretty (fetchStatus response) +:+ ": "
                   +:+ fetchStatusText response))
       else if declares (fetchContentType response) "application/json" then
         call (JSON_parse P (fetchText response))
       else ret (VStr (fetchText response))).

Definition sqliteStrategy (B : Backends) : Strategy :=
  fun config _ =>
    result
      (let* sql := get_prop config "sql" in
       let* parameters := get_prop config "parameters" in
       let* return_one := get_prop config "return_one" in
       let parameters := orDefault parameters (VArr []) in
       let return_one := orDefault return_one (VBool false) in
       let* rows := call (db_query B sql parameters) in
       if truthy return_one then
         match rows with
         | row :: _ => ret (VArr row)
         | [] => ret VNull
         end
       else ret (VArr (VArr <$> rows))).

(** ** server.js *)

(** [const dataStrategies = { request: requestStrategy, sqlite: sqliteStrategy }] *)
Definition dataStrategies (P : Platform) (B : Backends) : gmap string Strategy :=
  <["sqlite" := sqliteStrategy B]> {["request" := requestStrategy P B]}.

(** [s.split(".")] *)
Fixpoint split_dot (s : string) : list string :=
  match s with
  | EmptyString => [""]
  | String c r =>
      if Ascii.eqb c "."%char then "" :: split_dot r
      else match split_dot r with
           | h :: t => String c h :: t
           | [] => [String c ""]
           end
  end.

Fixpoint has_dot (s : string) : bool :=
  match s with
  | EmptyString => false
  | String c r => Ascii.eqb c "."%char || has_dot r
  end.

(** the content types [serveStatic] knows, by extension (the table is
    its own six entries; the names every object inherits are not part of
    it) *)
Definition staticTypes : list (string * string) := [
  ("css", "text/css");
  ("js", "application/javascript");
  ("png", "image/png");
  ("jpg", "image/jpeg");
  ("gif", "image/gif");
  ("svg", "image/svg+xml")
].

(** [{...}[pathname.split(".").pop()] || "application/octet-stream"] *)
Definition staticContentType (pathname : string) : string :=
  let ext := default "" (last (split_dot pathname)) in
  default "application/octet-stream" (textLookup ext staticTypes).

Definition staticNotFoundResponse : Response :=
  {| status := 404; contentTypeHeader := None;
     responseBody := "Static file not found" |}.

(** [serveStatic(url)]; [None] is its [null] *)
Definition serveStatic (fs : node) (pathname : string) : option Response :=
  if String.prefix "/static/" pathname then
    match Deno_readTextFile fs ("." +:+ pathname) with
    | Some content =>
        Some {| status := 200;
                contentTypeHeader := Some (staticContentType pathname);
                responseBody := content |}
    | None => Some staticNotFoundResponse
    end
  else None.

(** A request as the server sees it, its URL already parsed. *)
Record ServerRequest := {
  httpMethod : string;
  pathname : string;
  searchParams : list (string * string);
  httpRequest : Request;
}.

(** [s.slice(1)] *)
Definition slice_1 (s : string) : string :=
  match s with EmptyString => "" | String _ r => r end.

Definition handler (P : Platform) (B : Backends) (fs : node) (req : ServerRequest)
    : M Response :=
  log level_info ("Request: " +:+ httpMethod req +:+ " " +:+ pathname req) (VObj ∅);;
  match serveStatic fs (pathname req) with
  | Some staticResponse => ret staticResponse
  | None =>
      let path := slice_1 (pathname req) in
      let query := assignAll VStr (searchParams req) in
      if String.eqb (httpMethod req) "POST"
      then handlePostRequest P fs path (httpRequest req) (dataStrategies P B)
      else renderPage P fs path (VObj query) (dataStrategies P B)
  end.

(** ** render_page.js: loading the templates *)

(** [name.endsWith(suffix)] *)
Fixpoint endsWith (suffix s : string) : bool :=
  String.eqb s suffix
  || match s with
     | EmptyString => false
     | String _ r => endsWith suffix r
     end.

(** One pass of [for await (const file of files)]: every entry whose name
    ends in [.hbs] is read and registered under its name without the
    (first) [.hbs]; the first read that throws ends the pass, what was
    registered stays. *)
Fixpoint registerEach (fs : node) (dir : string) (files : list DirEntry)
    (partials : gmap string string) : gmap string string :=
  match files with
  | [] => partials
  | file :: rest =>
      if endsWith ".hbs" (name file) then
        match Deno_readTextFile fs (dir +:+ "/" +:+ name file) with
        | Some content =>
            registerEach fs dir rest
              (<[Str.removeFirst ".hbs" (name file) := content]> partials)
        | None => partials
        end
      else registerEach fs dir rest partials
  end.

Definition loadDirectory (fs : node) (dir : string) (partials : gmap string string)
    : gmap string string :=
  match Deno_readDir fs dir with
  | Some files => registerEach fs dir files partials
  | None => partials
  end.

Definition loadLayouts (fs : node) (partials : gmap string string) :=
  loadDirectory fs "./templates/layouts" partials.

Definition loadPartials (fs : node) (partials : gmap string string) :=
  loadDirectory fs "./templates/partials" partials.

(** the engine's registry and the module's [templatesLoaded] flag *)
Record Templates := {
  templatesLoaded : bool;
  registered : gmap string string;
}.

Definition ensureTemplatesLoaded (fs : node) (t : Templates) : Templates :=
  if templatesLoaded t then t
  else {| templatesLoaded := true;
          registered := loadPartials fs (loadLayouts fs (registered t)) |}.

(** Backends of the examples: one address answers 404, one answers with
    JSON, the store has no rows. *)
Definition sampleBackends : Backends := {|
  fetch := fun url _ =>
    match url with
    | VStr "https://example.com/missing" =>
        Returns {| fetchStatus := 404; fetchStatusText := "Not Found";
                   fetchContentType := Some "text/html"; fetchText := "" |}
    | VStr "https://example.com/null" =>
        Returns {| fetchStatus := 200; fetchStatusText := "OK";
                   fetchContentType := Some "application/json; charset=utf-8";
                   fetchText := "null" |}
    | _ => Raises "TypeError" "error sending request"
    end;
  db_query := fun _ _ => Returns [];
|}.

(** A working directory with a style sheet, an unknown kind of file, a
    layout and a partial of the same name, and a page at [static/docs]. *)
Definition siteTree : node :=
  Dir [("static", Dir [("css", Dir [("style.css", File "body {}")]);
                       ("LICENSE", File "MIT")]);
       ("templates", Dir [
          ("layouts", Dir [("layout.hbs", File "<html>{{{body}}}</html>");
                           ("notes.txt", File "not a template")]);
          ("partials", Dir [("layout.hbs", File "<main>{{{body}}}</main>");
                            ("nav.hbs.hbs", File "<nav></nav>")])]);
       ("pages", Dir [("index.html", File "<!doctype html><p>Home</p>");
                      ("static", Dir [("docs", page "<!doctype html><p>Docs</p>")])])].

(** ** Notions for the page directory *)

(** an occurrence of [pat] in [d +:+ pat] begins inside [d] *)
Fixpoint startsIn (pat d : string) : bool :=
  match d with
  | EmptyString => false
  | String _ r => String.prefix pat (d +:+ pat) || startsIn pat r
  end.

(** A page below a directory that is itself called [index.html]. *)
Definition shadowTree : node :=
  Dir [("pages", Dir [
     ("index.html", Dir [("docs", Dir [("index.html", File "<p>Docs</p>");
                                       ("post.yaml", File "name: Test")])])
  ])].

(** A platform that parses one more document: a list of operations with
    an empty item. *)
Definition listText : string :=
  "{name: Test, fetch_data: [{type: test, key: a, value: first}, null]}".

Definition listPlatform : Platform := {|
  handlebars := handlebars samplePlatform;
  handlebars_page := handlebars_page samplePlatform;
  yaml_parse := fun text =>
    if String.eqb text listText
    then Returns (VObj (<["fetch_data" := VArr [operation "test" "a" "first"; VNull]]>
                          {["name" := VStr "Test"]}))
    else yaml_parse samplePlatform text;
  JSON_parse := JSON_parse samplePlatform;
  JSON_stringify := JSON_stringify samplePlatform;
  URLSearchParams := URLSearchParams samplePlatform;
  req_formData := req_formData samplePlatform;
|}.
(** ** Properties of the resolver *)

Section Strings.

Lemma append_cons c (a b : string) : String c a +:+ b = String c (a +:+ b).
Proof. reflexivity. Qed.

Lemma append_assoc (a b c : string) : (a +:+ b) +:+ c = a +:+ (b +:+ c).
Proof. induction a as [|x a IH]; [done|]. by rewrite !append_cons, IH. Qed.

Lemma split_slash_nonnil s : Str.split_slash s ≠ [].
Proof.
  destruct s as [|c r]; [done|]. cbn.
  destruct (Ascii.eqb c "/"); [done|].
  by destruct (Str.split_slash r).
Qed.

(** splitting distributes over a slash *)
Lemma split_slash_app a b :
  Str.split_slash (a +:+ "/" +:+ b) = Str.split_slash a ++ Str.split_slash b.
Proof.
  induction a as [|c a IH]; [done|].
  rewrite append_cons.
  cbn [Str.split_slash]. rewrite IH.
  destruct (Ascii.eqb c "/"); [done|].
  pose proof (split_slash_nonnil a).
  by destruct (Str.split_slash a).
Qed.

Lemma split_slash_no_slash s :
  Str.has_slash s = false → Str.split_slash s = [s].
Proof.
  induction s as [|c r IH]; [done|]. cbn.
  destruct (Ascii.eqb c "/"); [done|]. cbn. intros H. by rewrite IH.
Qed.

Lemma valid_name_spec s :
  valid_name s = true →
  s ≠ "" ∧ s ≠ "." ∧ s ≠ ".." ∧ Str.has_slash s = false.
Proof.
  unfold valid_name. rewrite !andb_true_iff, !negb_true_iff.
  intros [[[H1 H2] H3] H4].
  apply String.eqb_neq in H2, H3. repeat split; try done.
  by intros ->.
Qed.

End Strings.

(** *** Walking the tree *)


Section Walk.
Variable root : node.

Lemma walk_app l c1 c2 :
  walk root l (c1 ++ c2) = walk root l c1 ≫= fun l' => walk root l' c2.
Proof.
  revert l. induction c1 as [|c c1 IH]; intros l; [done|].
  cbn [app walk]. destruct (node_at root l); [done|].
  destruct (_ || _); [apply IH|].
  destruct (String.eqb c ".."); [destruct l; [done|apply IH]|].
  destruct (entry_lookup c entries); [apply IH|done].
Qed.

(** Without [..] a walk only descends: the place reached is the start
    followed by the components that name entries. *)
Lemma walk_descends comps : ∀ l l',
  Forall (fun c => c ≠ "..") comps →
  walk root l comps = Some l' →
  rev (l'.*1) = rev (l.*1) ++ filter names_entry comps.
Proof.
  induction comps as [|c comps IH]; intros l l' Hdd Hw.
  { cbn in Hw. injection Hw as <-. by rewrite app_nil_r. }
  apply Forall_cons in Hdd as [Hc Hdd]. cbn [walk] in Hw.
  destruct (node_at root l); [done|].
  destruct (String.eqb_spec c "") as [->|Hne].
  { cbn in Hw. rewrite filter_cons_False by (by intros [? _]). by apply IH. }
  destruct (String.eqb_spec c ".") as [->|Hnd].
  { cbn in Hw. rewrite filter_cons_False by (by intros [_ ?]). by apply IH. }
  cbn in Hw. destruct (String.eqb_spec c ".."); [done|].
  destruct (entry_lookup c entries) as [ch|]; [|done].
  rewrite filter_cons_True by done.
  rewrite (IH _ _ Hdd Hw). cbn. by rewrite <- app_assoc.
Qed.

Lemma entry_lookup_wf c es ch :
  forallb (fun e => valid_name e.1 && wf_node e.2) es = true →
  entry_lookup c es = Some ch → valid_name c = true ∧ wf_node ch = true.
Proof.
  induction es as [|[n x] es IH]; [done|]. cbn.
  rewrite !andb_true_iff. intros [[Hn Hx] Hes].
  destruct (String.eqb_spec n c) as [->|_]; [|by apply IH].
  by intros [= ->].
Qed.

Hypothesis root_wf : wf_node root = true.

Lemma node_at_wf l : wf_loc l → wf_node (node_at root l) = true.
Proof. destruct l as [|[n x] l]; [done|]. by intros [[_ ?] _]%Forall_cons. Qed.

Lemma walk_wf comps : ∀ l l',
  wf_loc l → walk root l comps = Some l' → wf_loc l'.
Proof.
  induction comps as [|c comps IH]; intros l l' Hl Hw.
  { cbn in Hw. by injection Hw as <-. }
  cbn [walk] in Hw. pose proof (node_at_wf l Hl) as Hn.
  destruct (node_at root l) as [|es]; [done|].
  destruct (_ || _); [by eapply IH|].
  destruct (String.eqb c "..").
  { destruct l; [done|]. apply Forall_cons in Hl as [_ Hl]. by eapply IH. }
  destruct (entry_lookup c es) as [ch|] eqn:Hlk; [|done].
  eapply IH; [|done]. apply Forall_cons. split; [|done].
  by eapply entry_lookup_wf.
Qed.

(** every entry [Deno.readDir] lists has a name the file system allows *)
Lemma readDir_valid path es e :
  Deno_readDir root path = Some es → e ∈ es → valid_name (name e) = true.
Proof.
  unfold Deno_readDir, resolve.
  destruct (walk root [] _) as [l|] eqn:Hw; [|done].
  pose proof (node_at_wf l (walk_wf _ _ _ (Forall_nil_2 _) Hw)) as Hn.
  destruct (node_at root l) as [|es0]; [done|].
  intros [= <-] (x & -> & Hx)%list_elem_of_fmap. cbn.
  cbn in Hn. rewrite forallb_forall in Hn.
  apply list_elem_of_In, Hn, andb_true_iff in Hx. tauto.
Qed.

End Walk.

(** *** The trace of a successful search *)


Lemma first_result_Some {A B} (body : A → option B) l b :
  first_result body l = Some b → ∃ x, x ∈ l ∧ body x = Some b.
Proof.
  induction l as [|x l IH]; [done|]. cbn.
  destruct (body x) as [b'|] eqn:Hx.
  - intros [= ->]. exists x. split; [left|done].
  - intros (y & ? & ?)%IH. exists y. split; [by right|done].
Qed.

Lemma searchPath_trace fs segments : ∀ cur p m,
  searchPath fs segments cur p = Some m →
  ∃ ds, length ds = length segments
        ∧ pagePath m = pathUnder cur ds +:+ "/index.html"
        ∧ params m = bindAll p segments ds
        ∧ listed fs cur ds
        ∧ Deno_stat fs (pagePath m) = true.
Proof.
  induction segments as [|segment rest IH]; intros cur p m; cbn [searchPath].
  { destruct (Deno_stat _ _) eqn:Hs; [|done]. intros [= <-]. by exists []. }
  destruct (Deno_readDir fs cur) as [es|] eqn:Hrd; [|done].
  intros (e & He & Hbody)%first_result_Some.
  destruct (isDirectory e) eqn:Hdir; [|done]. cbn in Hbody.
  destruct (String.eqb_spec (name e) segment) as [Heq|Hne].
  - apply IH in Hbody as (ds & Hlen & Hp & Hb & Hl & Hs).
    exists (segment :: ds). cbn. unfold bindLevel. rewrite String.eqb_refl.
    repeat split; [by rewrite Hlen|done..| |done|done].
    by exists es, e.
  - destruct (_ && _); [|done].
    apply IH in Hbody as (ds & Hlen & Hp & Hb & Hl & Hs).
    exists (name e :: ds). cbn. unfold bindLevel.
    destruct (String.eqb_spec (name e) segment); [done|].
    repeat split; [by rewrite Hlen|done..| |done|done].
    by exists es, e.
Qed.

Lemma listed_valid fs : wf_node fs = true → ∀ ds cur,
  listed fs cur ds → Forall (fun d => valid_name d = true) ds.
Proof.
  intros Hwf. induction ds as [|d ds IH]; intros cur; [done|].
  intros [(es & e & Hrd & He & <- & _) Hl]. constructor; [|by eapply IH].
  by eapply readDir_valid.
Qed.

Lemma split_pathUnder ds : ∀ cur,
  Forall (fun d => valid_name d = true) ds →
  Str.split_slash (pathUnder cur ds) = Str.split_slash cur ++ ds.
Proof.
  induction ds as [|d ds IH]; intros cur Hv.
  { cbn. by rewrite app_nil_r. }
  change (pathUnder cur (d :: ds)) with (pathUnder (cur +:+ "/" +:+ d) ds).
  apply Forall_cons in Hv as [Hd Hv]. rewrite (IH _ Hv), split_slash_app.
  apply valid_name_spec in Hd as (_ & _ & _ & Hd).
  by rewrite (split_slash_no_slash _ Hd), <- app_assoc.
Qed.

Lemma filter_names_valid ds :
  Forall (fun d => valid_name d = true) ds → filter names_entry ds = ds.
Proof.
  induction 1 as [|d ds Hd _ IH]; [done|].
  apply valid_name_spec in Hd as (? & ? & _).
  by rewrite filter_cons_True, IH.
Qed.

Lemma canonical_descends fs path comps :
  Str.split_slash path = comps →
  Forall (fun c => c ≠ "..") comps →
  Deno_stat fs path = true →
  canonical fs path = Some (filter names_entry comps).
Proof.
  unfold Deno_stat, canonical, resolve. intros -> Hdd.
  destruct (walk fs [] _) as [l|] eqn:Hw; [|done]. intros _. cbn.
  by rewrite (walk_descends _ _ _ _ Hdd Hw).
Qed.

(** What the recursive search returns lies below the page root. *)
Lemma searchPath_within_root fs segments p m :
  wf_node fs = true →
  searchPath fs segments "./pages" p = Some m →
  ∃ ds, canonical fs (pagePath m) = Some ("pages" :: ds ++ ["index.html"]).
Proof.
  intros Hwf (ds & _ & Hp & _ & Hl & Hs)%searchPath_trace.
  pose proof (listed_valid fs Hwf _ _ Hl) as Hv.
  exists ds.
  assert (Str.split_slash (pagePath m) = [".";"pages"] ++ ds ++ ["index.html"]) as Hsp.
  { rewrite Hp.
    change (pathUnder "./pages" ds +:+ "/index.html")
      with (pathUnder "./pages" ds +:+ "/" +:+ "index.html").
    rewrite split_slash_app, split_pathUnder by done. by rewrite <- app_assoc. }
  rewrite (canonical_descends _ _ _ Hsp); [| |done].
  - rewrite filter_app, filter_app. cbn. f_equal. f_equal.
    by rewrite filter_names_valid.
  - apply Forall_app. split; [by repeat constructor|].
    apply Forall_app. split; [|by repeat constructor].
    eapply Forall_impl; [exact Hv|]. cbn. intros d Hd%valid_name_spec. tauto.
Qed.

(** *** The exact-match fast path *)

Lemma exactPathOf_split path :
  Str.split_slash (exactPathOf path)
  = [".";"pages"] ++ Str.split_slash path ++ ["index.html"].
Proof.
  unfold exactPathOf.
  change ("./pages/" +:+ path +:+ "/index.html")
    with ("./pages" +:+ "/" +:+ (path +:+ "/" +:+ "index.html")).
  by rewrite !split_slash_app.
Qed.

Lemma split_slash_pieces s :
  Forall (fun c => Str.has_slash c = false) (Str.split_slash s).
Proof.
  induction s as [|c r IH]; [by repeat constructor|]. cbn.
  destruct (Ascii.eqb c "/") eqn:Hc; [by constructor|].
  destruct (Str.split_slash r) as [|h t]; [by repeat constructor; cbn; rewrite Hc|].
  apply Forall_cons in IH as [Hh Ht]. constructor; [|done]. cbn. by rewrite Hc.
Qed.

Lemma split_joinSlash l :
  l ≠ [] → Forall (fun c => Str.has_slash c = false) l →
  Str.split_slash (joinSlash l) = l.
Proof.
  induction l as [|x l IH]; [done|]. intros _ [Hx Hl]%Forall_cons.
  destruct l as [|y l]; [by apply split_slash_no_slash|].
  change (joinSlash (x :: y :: l)) with (x +:+ "/" +:+ joinSlash (y :: l)).
  by rewrite split_slash_app, IH, split_slash_no_slash.
Qed.

(** Before a further component, empty components change nothing. *)
Lemma walk_skip_empty root x comps : ∀ l,
  walk root l (comps ++ [x])
  = walk root l (filter (fun s => Str.nonempty s = true) comps ++ [x]).
Proof.
  induction comps as [|c comps IH]; intros l; [done|].
  destruct c as [|a c].
  - rewrite filter_cons_False by done. rewrite <- IH.
    cbn [app walk]. destruct (node_at root l) eqn:Hn; [|done].
    destruct comps; cbn [app walk]; by rewrite Hn.
  - rewrite filter_cons_True by done. cbn [app walk].
    destruct (node_at root l); [done|].
    destruct (_ || _); [apply IH|].
    destruct (String.eqb _ ".."); [destruct l; [done|apply IH]|].
    destruct (entry_lookup _ _); [apply IH|done].
Qed.

Lemma filter_all {A} (P : A → Prop) `{!∀ x, Decision (P x)} (l : list A) :
  Forall P l → filter P l = l.
Proof. induction 1; [done|]. rewrite filter_cons_True by done. by f_equal. Qed.

Lemma filter_split_joinSlash segs :
  Forall (fun c => Str.nonempty c = true ∧ Str.has_slash c = false) segs →
  filter (fun s => Str.nonempty s = true) (Str.split_slash (joinSlash segs)) = segs.
Proof.
  intros H. destruct segs as [|s segs]; [done|].
  rewrite split_joinSlash; [|done|].
  - apply filter_all. eapply Forall_impl; [exact H|]. cbn. tauto.
  - eapply Forall_impl; [exact H|]. cbn. tauto.
Qed.

Lemma pathSegments_pieces path :
  Forall (fun c => Str.nonempty c = true ∧ Str.has_slash c = false)
    (filter (fun s => Str.nonempty s = true) (Str.split_slash path)).
Proof.
  apply Forall_forall. intros c [Hc Hin]%list_elem_of_filter. split; [done|].
  pose proof (split_slash_pieces path) as H. rewrite Forall_forall in H. auto.
Qed.

Lemma resolve_exact_joined fs path :
  resolve fs (exactPathOf path) = resolve fs (joinedPathOf path).
Proof.
  unfold resolve. rewrite exactPathOf_split. unfold joinedPathOf.
  pose proof (filter_split_joinSlash _ (pathSegments_pieces path)) as Hf.
  set (segs := filter _ (Str.split_slash path)) in *.
  change ("./pages/" +:+ joinSlash segs +:+ "/index.html")
    with ("./pages" +:+ "/" +:+ (joinSlash segs +:+ "/" +:+ "index.html")).
  rewrite !split_slash_app, !walk_app.
  destruct (walk fs [] _) as [l|]; [cbn|done].
  rewrite walk_skip_empty, (walk_skip_empty _ _ (Str.split_slash (joinSlash segs))).
  by rewrite Hf.
Qed.

(** C5. When a content file exists at the location the segments of the path
    join to under the page root, the resolver returns the exact match with
    no parameters, whatever the parameterized search would find; the path
    it returns denotes that location. *)
Theorem exact_match_first fs path :
  Deno_stat fs (joinedPathOf path) = true →
  findPageWithParams fs path
    = Some {| pagePath := exactPathOf path; params := ∅ |}
  ∧ resolve fs (exactPathOf path) = resolve fs (joinedPathOf path).
Proof.
  intros Hs. split; [|apply resolve_exact_joined].
  unfold findPageWithParams, Deno_stat in *.
  rewrite resolve_exact_joined. by destruct (resolve fs (joinedPathOf path)).
Qed.

(** In [exactTree] the search alone would bind [about] to [userId]; the
    exact match is returned all the same. *)
Lemma exact_match_first_witness :
  searchPath exactTree ["about"] "./pages" ∅
    = Some {| pagePath := "./pages/[userId]/index.html";
              params := {["userId" := "about"]} |}
  ∧ findPageWithParams exactTree "/about/"
    = Some {| pagePath := "./pages//about//index.html"; params := ∅ |}.
Proof.
  split; [reflexivity|].
  apply (exact_match_first exactTree "/about/"). reflexivity.
Defined.

(** *** Staying below the page root *)




(** *** Listing order *)

(** C4 at [orderTree] and the path [x/1]: the directory named [x] leads
    to a page, and yet the parameter directory [[a]], listed first, is the
    one the search returns. *)
Theorem parameter_directory_listed_first_wins :
  searchPath orderTree ["1"] "./pages/x" ∅
    = Some {| pagePath := "./pages/x/[b]/index.html";
              params := {["b" := "1"]} |}
  ∧ findPageWithParams orderTree "x/1"
    = Some {| pagePath := "./pages/[a]/[b]/index.html";
              params := <["b" := "1"]> {["a" := "x"]} |}.
Proof. split; reflexivity. Qed.

(** At one level the search returns the result of the first listed entry
    whose attempt succeeds. *)
Lemma searchPath_first_listed fs segment rest cur p es0 e es1 r :
  Deno_readDir fs cur = Some (es0 ++ e :: es1) →
  isDirectory e = true →
  name e = segment →
  searchPath fs rest (cur +:+ "/" +:+ segment) p = Some r →
  Forall (fun e' => isDirectory e' = false
            ∨ (name e' ≠ segment
               ∧ (Str.startsWithChar "[" (name e') && Str.endsWithChar "]" (name e') = false
                  ∨ searchPath fs rest (cur +:+ "/" +:+ name e')
                      (<[Str.slice_1_m1 (name e') := segment]> p) = None))) es0 →
  searchPath fs (segment :: rest) cur p = Some r.
Proof.
  intros Hrd Hdir Hname Hr Hbefore. cbn [searchPath]. rewrite Hrd. clear Hrd.
  induction Hbefore as [|e' es0 He' _ IH]; cbn.
  - rewrite Hdir. cbn. apply String.eqb_eq in Hname. by rewrite Hname, Hr.
  - destruct He' as [->|[Hne Hfail]]; [exact IH|].
    destruct (isDirectory e'); [cbn|exact IH].
    apply String.eqb_neq in Hne. rewrite Hne.
    destruct Hfail as [->| ->]; [exact IH|]. by destruct (_ && _).
Qed.

(** *** Parameters bound twice *)

Lemma bindAll_keeps n : ∀ segments ds p,
  (∀ k d s, ds !! k = Some d → segments !! k = Some s → d ≠ s →
            Str.slice_1_m1 d ≠ n) →
  bindAll p segments ds !! n = p !! n.
Proof.
  induction segments as [|s segments IH]; intros [|d ds] p Hlater; try done.
  cbn [bindAll]. rewrite IH.
  - unfold bindLevel. destruct (String.eqb_spec d s) as [|Hne]; [done|].
    apply lookup_insert_ne. by apply (Hlater 0 d s).
  - intros k d' s' ??. by apply (Hlater (S k)).
Qed.

Lemma bindAll_deepest : ∀ segments ds p j d s,
  ds !! j = Some d → segments !! j = Some s → d ≠ s →
  (∀ k d' s', j < k → ds !! k = Some d' → segments !! k = Some s' → d' ≠ s' →
              Str.slice_1_m1 d' ≠ Str.slice_1_m1 d) →
  bindAll p segments ds !! Str.slice_1_m1 d = Some s.
Proof.
  induction segments as [|s0 segments IH]; intros [|d0 ds] p j d s Hd Hs Hne Hlater;
    try done.
  cbn [bindAll]. destruct j as [|j].
  - injection Hd as ->. injection Hs as ->.
    rewrite bindAll_keeps.
    + unfold bindLevel. apply String.eqb_neq in Hne. rewrite Hne.
      apply lookup_insert_eq.
    + intros k d' s' ??. apply (Hlater (S k)); [lia|done..].
  - apply (IH _ _ j); [done..|].
    intros k d' s' ?. apply (Hlater (S k)). lia.
Qed.



(** *** The resolver on the page tree of the tests *)

Example resolve_parameter :
  findPageWithParams samplePages "42"
  = Some {| pagePath := "./pages/[userId]/index.html";
            params := {["userId" := "42"]} |}.
Proof. reflexivity. Qed.

Example resolve_nested_parameters :
  findPageWithParams samplePages "test/456/x/789"
  = Some {| pagePath := "./pages/test/[id1]/x/[id2]/index.html";
            params := <["id2" := "789"]> {["id1" := "456"]} |}.
Proof. reflexivity. Qed.

Example resolve_nothing :
  findPageWithParams samplePages "definitely-non-existent/deep/path" = None
  ∧ findPageWithParams samplePages "../../../etc/passwd" = None.
Proof. split; reflexivity. Qed.

(** ** How computations end *)

Section Monad.
Context {A B : Type}.

Lemma result_ret (a : A) : result (ret a) = Ok a.
Proof. reflexivity. Qed.

Lemma result_throw t : result (throw t : M A) = Throw t.
Proof. reflexivity. Qed.

Lemma result_lift (r : Res A) : result (lift r) = r.
Proof. reflexivity. Qed.

Lemma result_call (r : LibRes A) :
  result (call r)
  = match r with Returns a => Ok a | Raises c msg => Throw (ThrownError c msg) end.
Proof. by destruct r. Qed.

Lemma result_bind (m : M A) (f : A → M B) :
  result (bind m f)
  = match result m with Ok a => result (f a) | Throw t => Throw t end.
Proof. destruct m as [l [a|t]]; cbn; [|done]. by destruct (f a). Qed.

Lemma result_try_catch (m : M A) (h : thrown → M A) :
  result (try_catch m h)
  = match result m with Ok a => Ok a | Throw t => result (h t) end.
Proof. destruct m as [l [a|t]]; cbn; [done|]. by destruct (h t). Qed.

End Monad.

Lemma result_log lv msg d : result (log lv msg d) = Ok tt.
Proof. reflexivity. Qed.

(** rewrite [result] through the head of a computation *)
Ltac step :=
  rewrite ?result_bind, ?result_try_catch, ?result_log, ?result_ret,
    ?result_throw, ?result_lift, ?result_call;
  cbn beta iota.

Ltac steps := repeat (progress step).


Section ThrowsErrors.
Context {A B : Type}.

Lemma throws_errors_ret (a : A) : throws_errors (ret a).
Proof. done. Qed.

Lemma throws_errors_call (r : LibRes A) : throws_errors (call r).
Proof. by destruct r. Qed.

Lemma throws_errors_bind (m : M A) (f : A → M B) :
  throws_errors m → (∀ a, throws_errors (f a)) → throws_errors (bind m f).
Proof.
  intros Hm Hf v. rewrite result_bind.
  destruct (result m) as [a|t] eqn:Hr; [apply Hf|].
  intros [= ->]. by apply (Hm v).
Qed.

Lemma throws_errors_try_catch (m : M A) (h : thrown → M A) :
  (∀ t, throws_errors (h t)) → throws_errors (try_catch m h).
Proof.
  intros Hh v. rewrite result_try_catch.
  destruct (result m); [done|apply Hh].
Qed.

End ThrowsErrors.

Lemma throws_errors_log lv msg d : throws_errors (log lv msg d).
Proof. done. Qed.

Lemma throws_errors_get_prop v k : throws_errors (get_prop v k).
Proof. destruct v; cbn; try done; by destruct (String.eqb k "length"). Qed.

Lemma throws_errors_error_message t : throws_errors (error_message t).
Proof. destruct t; [done|apply throws_errors_get_prop]. Qed.

Lemma throws_errors_Object_keys v : throws_errors (Object_keys v).
Proof. by destruct v. Qed.

Ltac throws_errors :=
  repeat first
    [ apply throws_errors_ret | apply throws_errors_log
    | apply throws_errors_call | apply throws_errors_get_prop
    | apply throws_errors_error_message | apply throws_errors_Object_keys
    | apply throws_errors_try_catch; intros ?
    | apply throws_errors_bind; [|intros ?] ].

Lemma throws_errors_executeFetchStrategy config context ds :
  throws_errors (executeFetchStrategy config context ds).
Proof.
  unfold executeFetchStrategy. throws_errors.
  destruct (ds !! _); throws_errors.
Qed.

Lemma throws_errors_executeSendStrategy config context ds :
  throws_errors (executeSendStrategy config context ds).
Proof.
  unfold executeSendStrategy. throws_errors.
  destruct (ds !! _); throws_errors.
Qed.

Lemma throws_errors_collect config r results :
  throws_errors (collect config r results).
Proof. unfold collect. throws_errors. Qed.

Lemma throws_errors_fetchEach context ds configs : ∀ results,
  throws_errors (fetchEach configs context ds results).
Proof.
  induction configs as [|c configs IH]; intros results; cbn [fetchEach]; [done|].
  apply throws_errors_bind; [apply throws_errors_executeFetchStrategy|intros r].
  apply throws_errors_bind; [apply throws_errors_collect|intros results'].
  apply IH.
Qed.

Lemma throws_errors_sendEach context ds configs : ∀ results,
  throws_errors (sendEach configs context ds results).
Proof.
  induction configs as [|c configs IH]; intros results; cbn [sendEach]; [done|].
  apply throws_errors_bind; [apply throws_errors_executeSendStrategy|intros r].
  apply throws_errors_bind; [apply throws_errors_collect|intros results'].
  apply IH.
Qed.

Lemma throws_errors_fetchDataStrategies fetchConfig context ds :
  throws_errors (fetchDataStrategies fetchConfig context ds).
Proof.
  unfold fetchDataStrategies. destruct (negb _); [done|].
  destruct fetchConfig; try done.
  - apply throws_errors_fetchEach.
  - apply throws_errors_bind; [apply throws_errors_executeFetchStrategy|intros r].
    apply throws_errors_collect.
Qed.

Lemma throws_errors_sendDataStrategies sendConfig context ds :
  throws_errors (sendDataStrategies sendConfig context ds).
Proof.
  unfold sendDataStrategies. destruct (negb _); [done|].
  destruct sendConfig; try done.
  - apply throws_errors_sendEach.
  - apply throws_errors_bind; [apply throws_errors_executeSendStrategy|intros r].
    apply throws_errors_collect.
Qed.

(** ** The pipeline, case by case *)


Lemma result_Object_keys_obj m :
  result (Object_keys (VObj m)) = Ok ((map_to_list m).*1).
Proof. reflexivity. Qed.

Lemma fetchData_absent P yamlContent params query ds :
  has_text yamlContent = false →
  result (fetchData P yamlContent params query ds)
  = Ok (VObj (readContext params query)).
Proof. unfold fetchData. by intros ->. Qed.

Lemma fetchData_run P yamlContent text params query ds :
  yamlContent = Some text → has_text yamlContent = true →
  result (fetchData P yamlContent params query ds)
  = Ok (VObj (fetchDataOutcome P text params query ds)).
Proof.
  intros -> Ht. unfold fetchData, fetchDataOutcome. rewrite Ht. cbn [negb from_option]. unfold id.
  steps. destruct (handlebars P text _) as [expanded|c msg]; [|done].
  steps. destruct (yaml_parse P expanded) as [doc|c msg]; [|done].
  steps. pose proof (throws_errors_get_prop doc "fetch_data") as Hg.
  destruct (result (get_prop doc "fetch_data")) as [fd|[c msg|v]] eqn:Hr;
    [|by steps|by destruct (Hg v)].
  steps. destruct (truthy fd); [|by steps].
  steps. pose proof (throws_errors_fetchDataStrategies fd
                      (VObj (readContext params query)) ds) as Hf.
  destruct (result (fetchDataStrategies fd _ ds)) as [ops|[c msg|v]] eqn:Hr2;
    [|by steps|by destruct (Hf v)].
  by steps.
Qed.

Lemma handlePost_absent P yamlContent params query formData ds :
  has_text yamlContent = false →
  result (handlePost P yamlContent params query formData ds)
  = Ok (VObj (writeContext params query formData)).
Proof. unfold handlePost. by intros ->. Qed.

Lemma handlePost_run P yamlContent text params query formData ds :
  yamlContent = Some text → has_text yamlContent = true →
  result (handlePost P yamlContent params query formData ds)
  = Ok (VObj (handlePostOutcome P text params query formData ds)).
Proof.
  intros -> Ht. unfold handlePost, handlePostOutcome. rewrite Ht. cbn [negb from_option]. unfold id.
  steps. destruct (handlebars P text _) as [expanded|c msg]; [|done].
  steps. destruct (yaml_parse P expanded) as [doc|c msg]; [|done].
  steps. pose proof (throws_errors_get_prop doc "send_data") as Hg.
  destruct (result (get_prop doc "send_data")) as [sd|[c msg|v]] eqn:Hr;
    [|by steps|by destruct (Hg v)].
  steps. destruct (truthy sd); [|by steps].
  steps. pose proof (throws_errors_sendDataStrategies sd
                      (VObj (writeContext params query formData)) ds) as Hf.
  destruct (result (sendDataStrategies sd _ ds)) as [ops|[c msg|v]] eqn:Hr2;
    [|by steps|by destruct (Hf v)].
  by steps.
Qed.


(** ** The merge *)

Lemma result_collect config r results :
  result (collect config r results)
  = match result (get_prop config "key") with
    | Ok key => Ok (if truthy key && is_defined r
                    then <[to_string key := r]> results else results)
    | Throw t => Throw t
    end.
Proof. unfold collect. steps. by destruct (result (get_prop config "key")). Qed.

Lemma fetchEach_fold context ds configs : ∀ results out,
  result (fetchEach configs context ds results) = Ok out →
  out = fold_left (mergeCollected context ds) configs results.
Proof.
  induction configs as [|c configs IH]; intros results out; cbn [fetchEach fold_left].
  { by intros [= <-]. }
  steps. unfold mergeCollected at 2, collected.
  destruct (result (executeFetchStrategy c context ds)) as [r|]; [|done].
  steps. rewrite result_collect.
  destruct (result (get_prop c "key")) as [key|]; [|done].
  intros Hrest%IH. by destruct (truthy key && is_defined r).
Qed.

Lemma fold_mergeCollected_keeps context ds k r after : ∀ results,
  results !! k = Some r →
  Forall (fun c => ∀ r', collected c context ds ≠ Some (k, r')) after →
  fold_left (mergeCollected context ds) after results !! k = Some r.
Proof.
  induction after as [|c after IH]; intros results Hk Hafter; [done|].
  apply Forall_cons in Hafter as [Hc Hafter]. cbn [fold_left].
  apply IH; [|done]. unfold mergeCollected.
  destruct (collected c context ds) as [[k' r']|]; [|done].
  rewrite lookup_insert_ne; [done|]. intros ->. by apply (Hc r').
Qed.

(** the result of an operation stays in the results unless a later
    operation is collected under the same key *)
Lemma fetchEach_later_wins context ds before c after k r fetched :
  result (fetchDataStrategies (VArr (before ++ c :: after)) context ds) = Ok fetched →
  collected c context ds = Some (k, r) →
  Forall (fun c' => ∀ r', collected c' context ds ≠ Some (k, r')) after →
  fetched !! k = Some r.
Proof.
  cbn. intros ->%fetchEach_fold Hc Hafter.
  rewrite fold_left_app. cbn [fold_left].
  apply fold_mergeCollected_keeps; [|done].
  unfold mergeCollected at 1. rewrite Hc. apply lookup_insert_eq.
Qed.

Lemma insert_readContext params query (m : gmap string value) :
  <["query" := query]> (<["params" := params]> m) = readContext params query ∪ m.
Proof.
  unfold readContext. rewrite <- insert_empty.
  by rewrite <- !insert_union_l, (left_id_L ∅ (∪)).
Qed.

Lemma insert_writeContext params query formData (m : gmap string value) :
  <["formData" := formData]> (<["query" := query]> (<["params" := params]> m))
  = writeContext params query formData ∪ m.
Proof.
  unfold writeContext. rewrite <- insert_empty.
  by rewrite <- !insert_union_l, (left_id_L ∅ (∪)).
Qed.

Lemma shallowMerge_three (a b c : gmap string value) :
  shallowMerge [a; b; c] = c ∪ (b ∪ a).
Proof. unfold shallowMerge. cbn. by rewrite (right_id_L ∅ (∪)). Qed.

Lemma fetchDataStrategies_falsy fd context ds :
  truthy fd = false → result (fetchDataStrategies fd context ds) = Ok ∅.
Proof. unfold fetchDataStrategies. by intros ->. Qed.

(** C6, as the code has it. A run of the read pipeline in which the
    expansion, the parse and the dispatch succeed, on a document whose
    reserved key is absent or truthy, returns the shallow merge of the
    document without the reserved key, then the operation results, then
    the context, later sources winning: [params] and [query] are the
    context's, any other key is the operation result when there is one and
    the document's field otherwise, and among operations collected under one
    key the one declared last gives the value. *)
Theorem merge_order P text params query ds expanded doc fetch_data fetched :
  Str.nonempty text = true →
  handlebars P text (VObj (readContext params query)) = Returns expanded →
  yaml_parse P expanded = Returns doc →
  result (get_prop doc "fetch_data") = Ok fetch_data →
  truthy fetch_data = true ∨ spread doc !! "fetch_data" = None →
  result (fetchDataStrategies fetch_data (VObj (readContext params query)) ds)
    = Ok fetched →
  ∃ out,
    result (fetchData P (Some text) params query ds) = Ok (VObj out)
    ∧ out = shallowMerge [delete "fetch_data" (spread doc); fetched;
                          readContext params query]
    ∧ out !! "params" = Some params
    ∧ out !! "query" = Some query
    ∧ (∀ k, k ≠ "params" → k ≠ "query" →
         out !! k = match fetched !! k with
                    | Some r => Some r
                    | None => delete "fetch_data" (spread doc) !! k
                    end)
    ∧ (∀ before c after k r,
         fetch_data = VArr (before ++ c :: after) →
         collected c (VObj (readContext params query)) ds = Some (k, r) →
         Forall (fun c' => ∀ r', collected c' (VObj (readContext params query)) ds
                                  ≠ Some (k, r')) after →
         fetched !! k = Some r).
Proof.
  intros Ht Hh Hy Hg Hkey Hf.
  exists (shallowMerge [delete "fetch_data" (spread doc); fetched;
                        readContext params query]).
  rewrite shallowMerge_three. repeat split.
  - rewrite (fetchData_run P _ text) by done.
    unfold fetchDataOutcome. rewrite Hh, Hy, Hg.
    destruct (truthy fetch_data) eqn:Htr.
    + by rewrite Hf, insert_readContext.
    + destruct Hkey as [|Hnone]; [done|].
      rewrite fetchDataStrategies_falsy in Hf by done. injection Hf as <-.
      by rewrite insert_readContext, (left_id_L ∅ (∪)), delete_id.
  - by rewrite <- insert_readContext, lookup_insert_ne, lookup_insert_eq.
  - by rewrite <- insert_readContext, lookup_insert_eq.
  - intros k Hp Hq. rewrite <- insert_readContext, !lookup_insert_ne by done.
    rewrite lookup_union. destruct (fetched !! k), (delete _ _ !! k); done.
  - intros before c after k r -> Hc Hafter. by eapply fetchEach_later_wins.
Qed.

(** The document's own [params] is overridden by the context, its [name]
    passes through, the operation's result comes under its key. *)
Lemma merge_order_witness :
  ∃ out,
    result (fetchData samplePlatform (Some readConfigText) sampleParams (VObj ∅)
              mockDataStrategies) = Ok (VObj out)
    ∧ out !! "params" = Some sampleParams
    ∧ out !! "query" = Some (VObj ∅)
    ∧ out !! "name" = Some (VStr "Test")
    ∧ out !! "testData" = Some (testResult "config1")
    ∧ out !! "fetch_data" = None.
Proof.
  destruct (merge_order samplePlatform readConfigText sampleParams (VObj ∅)
              mockDataStrategies readConfigText
              (VObj (<["fetch_data" := operation "test" "testData" "config1"]>
                       (<["params" := VStr "x"]> {["name" := VStr "Test"]})))
              (operation "test" "testData" "config1")
              {["testData" := testResult "config1"]}
              eq_refl eq_refl eq_refl eq_refl (or_introl eq_refl) eq_refl)
    as (out & Hrun & _ & Hp & Hq & Hk & _).
  exists out. repeat split; [done..| | |].
  - by rewrite Hk.
  - by rewrite Hk.
  - by rewrite Hk.
Defined.

(** C6, as stated, fails on a document whose reserved key is falsy: the
    key is not taken out, and the output is not the merge that leaves it
    out. *)
Lemma falsy_reserved_key_is_merged :
  ∃ out,
    result (fetchData samplePlatform (Some "{name: Test, fetch_data: null}")
              sampleParams (VObj ∅) mockDataStrategies) = Ok (VObj out)
    ∧ out !! "fetch_data" = Some VNull
    ∧ shallowMerge [delete "fetch_data"
                      (spread (VObj (<["fetch_data" := VNull]> {["name" := VStr "Test"]})));
                    ∅; readContext sampleParams (VObj ∅)] !! "fetch_data" = None.
Proof. eexists. repeat split; reflexivity. Qed.

(** The last of two operations under one key gives the value. *)
Example later_operation_wins :
  ∃ out,
    result (fetchData samplePlatform (Some twoOperationsText) sampleParams (VObj ∅)
              mockDataStrategies) = Ok (VObj out)
    ∧ out !! "k" = Some (testResult "second").
Proof. eexists. split; reflexivity. Qed.

(** ** The reserved key *)

(** C7, as the code has it. When the reserved key of the document holds a
    truthy value, the document's entry under it is taken out before the
    merge: the output of either pipeline has the reserved key only when an
    operation is collected under that very key. *)
Theorem reserved_key_consumed P text params query formData ds expanded doc v :
  Str.nonempty text = true →
  truthy v = true →
  (handlebars P text (VObj (readContext params query)) = Returns expanded →
   yaml_parse P expanded = Returns doc →
   result (get_prop doc "fetch_data") = Ok v →
   ∃ out, result (fetchData P (Some text) params query ds) = Ok (VObj out)
     ∧ out !! "fetch_data"
       = match result (fetchDataStrategies v (VObj (readContext params query)) ds) with
         | Ok fetched => fetched !! "fetch_data"
         | Throw _ => None
         end)
  ∧ (handlebars P text (VObj (writeContext params query formData)) = Returns expanded →
     yaml_parse P expanded = Returns doc →
     result (get_prop doc "send_data") = Ok v →
     ∃ out, result (handlePost P (Some text) params query formData ds) = Ok (VObj out)
       ∧ out !! "send_data"
         = match result (sendDataStrategies v
                           (VObj (writeContext params query formData)) ds) with
           | Ok sent => sent !! "send_data"
           | Throw _ => None
           end).
Proof.
  intros Ht Hv. split; intros Hh Hy Hg.
  - eexists. split; [by apply (fetchData_run P _ text)|].
    unfold fetchDataOutcome. rewrite Hh, Hy, Hg, Hv.
    destruct (result (fetchDataStrategies _ _ _)) as [fetched|]; [|done].
    rewrite !lookup_insert_ne, lookup_union, lookup_delete_eq by done.
    by destruct (fetched !! "fetch_data").
  - eexists. split; [by apply (handlePost_run P _ text)|].
    unfold handlePostOutcome. rewrite Hh, Hy, Hg, Hv.
    destruct (result (sendDataStrategies _ _ _)) as [sent|]; [|done].
    rewrite !lookup_insert_ne, lookup_union, lookup_delete_eq by done.
    by destruct (sent !! "send_data").
Qed.

Lemma reserved_key_consumed_witness :
  (∃ out, result (fetchData samplePlatform (Some readConfigText) sampleParams
                    (VObj ∅) mockDataStrategies) = Ok (VObj out)
     ∧ out !! "fetch_data" = None).
Proof.
  destruct (reserved_key_consumed samplePlatform readConfigText sampleParams (VObj ∅)
              VNull mockDataStrategies readConfigText
              (VObj (<["fetch_data" := operation "test" "testData" "config1"]>
                       (<["params" := VStr "x"]> {["name" := VStr "Test"]})))
              (operation "test" "testData" "config1") eq_refl eq_refl)
    as [Hread _].
  destruct (Hread eq_refl eq_refl eq_refl) as (out & Hrun & Hkey).
  exists out. split; [exact Hrun|exact Hkey].
Defined.

(** C7, as stated, fails: a reserved key holding [null] is in the output
    of the read pipeline, and of the write pipeline. *)
Lemma falsy_reserved_key_stays :
  (∃ out,
     result (fetchData samplePlatform (Some "{name: Test, fetch_data: null}")
               sampleParams (VObj ∅) mockDataStrategies) = Ok (VObj out)
     ∧ out !! "fetch_data" = Some VNull)
  ∧ (∃ out,
       result (handlePost samplePlatform (Some "{name: Test, send_data: null}")
                 sampleParams (VObj ∅) (VObj ∅) mockDataStrategies) = Ok (VObj out)
       ∧ out !! "send_data" = Some VNull).
Proof. split; eexists; split; reflexivity. Qed.

(** ** The dispatcher *)

(** an operation of unknown type gives no result, and nothing is thrown *)
Lemma unknown_type_gives_no_result config context ds type :
  result (get_prop config "type") = Ok type →
  ds !! to_string type = None →
  result (executeFetchStrategy config context ds) = Ok VUndefined
  ∧ result (executeSendStrategy config context ds) = Ok VUndefined.
Proof.
  intros Ht Hd. unfold executeFetchStrategy, executeSendStrategy.
  split; steps; rewrite Ht; steps; rewrite Hd; by steps.
Qed.

(** a handler that throws an [Error] object, or any value but [null] and
    [undefined], gives no result, and nothing is thrown *)
Lemma thrown_error_gives_no_result config context ds type strategy t :
  result (get_prop config "type") = Ok type →
  ds !! to_string type = Some strategy →
  strategy config context = Throw t →
  t ≠ ThrownValue VUndefined → t ≠ ThrownValue VNull →
  result (executeFetchStrategy config context ds) = Ok VUndefined
  ∧ result (executeSendStrategy config context ds) = Ok VUndefined.
Proof.
  intros Ht Hd Hs Hu Hn. unfold executeFetchStrategy, executeSendStrategy.
  assert (∃ msg, result (error_message t) = Ok msg) as [msg Hmsg].
  { destruct t as [c msg|[]]; cbn; eauto; try done.
    all: destruct (String.eqb _ _); eauto. }
  split; steps; rewrite Ht; steps; rewrite Hd; steps; rewrite Hs; steps;
    rewrite Hmsg; by steps.
Qed.

(** a handler that returns gives what it returns *)
Lemma returned_value_is_the_result config context ds type strategy r :
  result (get_prop config "type") = Ok type →
  ds !! to_string type = Some strategy →
  strategy config context = Ok r →
  result (executeFetchStrategy config context ds) = Ok r
  ∧ result (executeSendStrategy config context ds) = Ok r.
Proof.
  intros Ht Hd Hs. unfold executeFetchStrategy, executeSendStrategy.
  split; steps; rewrite Ht; steps; rewrite Hd; steps; by rewrite Hs.
Qed.

(** a pair is collected exactly when the key is set and the result defined *)
Lemma collected_only_when config r results key :
  result (get_prop config "key") = Ok key →
  result (collect config r results)
  = Ok (if truthy key && is_defined r
        then <[to_string key := r]> results else results).
Proof. intros Hk. by rewrite result_collect, Hk. Qed.

(** C9 at a handler whose promise rejects without a reason: reading
    [error.message] in the dispatcher's own [catch] throws, the failure
    leaves the dispatcher, and the pipeline, which catches it, returns the
    context alone: the document's [name] is lost with the operation's key. *)
Theorem rejection_without_reason_escapes :
  result (executeFetchStrategy (operation "reject" "testData" "config1")
            (VObj (readContext sampleParams (VObj ∅))) mockDataStrategies)
    = Throw (TypeError "Cannot read properties of undefined (reading 'message')")
  ∧ result (executeSendStrategy (operation "reject" "testData" "config1")
              (VObj (writeContext sampleParams (VObj ∅) (VObj ∅))) mockDataStrategies)
    = Throw (TypeError "Cannot read properties of undefined (reading 'message')")
  ∧ result (fetchData samplePlatform (Some rejectingText) sampleParams (VObj ∅)
              mockDataStrategies)
    = Ok (VObj (readContext sampleParams (VObj ∅)))
  ∧ result (executeFetchStrategy (operation "error" "testData" "config1")
              (VObj (readContext sampleParams (VObj ∅))) mockDataStrategies)
    = Ok VUndefined.
Proof. repeat split; reflexivity. Qed.

(** ** The write flow *)

Lemma result_parseFormData P req :
  result (parseFormData P req)
  = if declares (contentType req) "application/json" then
      match JSON_parse P (body req) with
      | Returns v => Ok v
      | Raises _ _ => Ok (VObj ∅)
      end
    else if declares (contentType req) "application/x-www-form-urlencoded" then
      Ok (VObj (assignAll VStr (URLSearchParams P (body req))))
    else if declares (contentType req) "multipart/form-data" then
      match req_formData P req with
      | Returns fields => Ok (VObj (assignAll fieldValue fields))
      | Raises c msg => Throw (ThrownError c msg)
      end
    else Ok (VObj ∅).
Proof.
  unfold parseFormData.
  destruct (declares _ "application/json").
  { steps. by destruct (JSON_parse P (body req)). }
  destruct (declares _ "application/x-www-form-urlencoded"); [done|].
  destruct (declares _ "multipart/form-data"); [|done].
  steps. by destruct (req_formData P req).
Qed.

Lemma result_handlePostRequest P fs path req ds found :
  findPageWithParams fs path = Some found →
  isPostAllowed fs (pagePath found) = true →
  result (handlePostRequest P fs path req ds)
  = match result (parseFormData P req) with
    | Throw t => Throw t
    | Ok formData =>
        match result (Object_keys formData) with
        | Throw t => Throw t
        | Ok _ =>
            match result (let postYamlContent := loadPostYaml fs (pagePath found) in
                          if has_text postYamlContent
                          then handlePost P postYamlContent
                                 (paramsValue (params found)) (VObj ∅) formData ds
                          else ret (VObj (writeContext (paramsValue (params found))
                                            (VObj ∅) formData))) with
            | Ok data =>
                Ok {| status := 200; contentTypeHeader := Some "application/json";
                      responseBody := JSON_stringify P data |}
            | Throw t => Throw t
            end
        end
    end.
Proof.
  intros Hf Ha. unfold handlePostRequest. rewrite Hf. steps. rewrite Ha. cbn [negb].
  steps. destruct (result (parseFormData P req)) as [formData|]; [|done].
  steps. destruct (result (Object_keys formData)); [|done].
  steps. cbn zeta. destruct (has_text _); [|by steps].
  by destruct (result (handlePost _ _ _ _ _ _)).
Qed.

(** C2 where the code leaves it. For a page that resolves and passes the
    permission check: a JSON body that is the text [null] decodes to
    [null], of which the keys are asked for the log, and the request ends
    in a [TypeError]; a multipart body the platform cannot decode ends the
    request in the platform's error. Neither returns a response. *)
Theorem write_flow_decoding_failures P fs path req ds found :
  findPageWithParams fs path = Some found →
  isPostAllowed fs (pagePath found) = true →
  (declares (contentType req) "application/json" = true →
   JSON_parse P (body req) = Returns VNull →
   result (handlePostRequest P fs path req ds)
   = Throw (TypeError "Cannot convert undefined or null to object"))
  ∧ (∀ c msg,
       declares (contentType req) "application/json" = false →
       declares (contentType req) "application/x-www-form-urlencoded" = false →
       declares (contentType req) "multipart/form-data" = true →
       req_formData P req = Raises c msg →
       result (handlePostRequest P fs path req ds) = Throw (ThrownError c msg)).
Proof.
  intros Hf Ha. split.
  - intros Hj Hnull.
    by rewrite (result_handlePostRequest _ _ _ _ _ _ Hf Ha), result_parseFormData,
      Hj, Hnull.
  - intros c msg Hj Hu Hm Hraise.
    by rewrite (result_handlePostRequest _ _ _ _ _ _ Hf Ha), result_parseFormData,
      Hj, Hu, Hm, Hraise.
Qed.

Lemma write_flow_decoding_failures_witness :
  result (handlePostRequest samplePlatform formTree "form"
            {| contentType := Some "application/json"; body := "null" |}
            mockDataStrategies)
    = Throw (TypeError "Cannot convert undefined or null to object")
  ∧ result (handlePostRequest samplePlatform formTree "form"
              {| contentType := Some "multipart/form-data"; body := "name=Test" |}
              mockDataStrategies)
    = Throw (ThrownError "TypeError" "Unable to parse body as form data").
Proof.
  split.
  - exact (proj1 (write_flow_decoding_failures samplePlatform formTree "form"
             {| contentType := Some "application/json"; body := "null" |}
             mockDataStrategies
             {| pagePath := "./pages/form/index.html"; params := ∅ |}
             eq_refl eq_refl) eq_refl eq_refl).
  - exact (proj2 (write_flow_decoding_failures samplePlatform formTree "form"
             {| contentType := Some "multipart/form-data"; body := "name=Test" |}
             mockDataStrategies
             {| pagePath := "./pages/form/index.html"; params := ∅ |}
             eq_refl eq_refl) _ _ eq_refl eq_refl eq_refl eq_refl).
Defined.

(** Where the body decodes to anything but [null], the write flow answers
    200 with a JSON body, whatever the write-config holds. *)
Lemma write_flow_answers_200 P fs path req ds found formData :
  findPageWithParams fs path = Some found →
  isPostAllowed fs (pagePath found) = true →
  result (parseFormData P req) = Ok formData →
  formData ≠ VNull → formData ≠ VUndefined →
  ∃ data,
    result (handlePostRequest P fs path req ds)
    = Ok {| status := 200; contentTypeHeader := Some "application/json";
            responseBody := JSON_stringify P data |}.
Proof.
  intros Hf Ha Hp Hn Hu.
  rewrite (result_handlePostRequest _ _ _ _ _ _ Hf Ha), Hp.
  assert (∃ keys, result (Object_keys formData) = Ok keys) as [keys ->].
  { destruct formData; cbn; eauto; done. }
  cbn zeta. destruct (has_text (loadPostYaml fs (pagePath found))) eqn:Ht.
  - destruct (loadPostYaml fs (pagePath found)) as [text|] eqn:Hl; [|done].
    rewrite (handlePost_run _ _ text) by done. eauto.
  - rewrite result_ret. eauto.
Qed.

(** ** The read flow *)

Lemma result_readTextFile fs path :
  result (readTextFile fs path)
  = match Deno_readTextFile fs path with
    | Some text => Ok text
    | None =>
        Throw (ThrownError "Error"
                 (if Deno_stat fs path
                  then "Is a directory (os error 21): readfile '" +:+ path +:+ "'"
                  else "No such file or directory (os error 2): readfile '" +:+ path +:+ "'"))
    end.
Proof. unfold readTextFile. by destruct (Deno_readTextFile fs path). Qed.

Lemma result_fetchPage fs path :
  result (fetchPage fs path)
  = Ok match findPageWithParams fs path with
       | None => NotFound
       | Some found =>
           match Deno_readTextFile fs (pagePath found) with
           | None => NotFound
           | Some pageContent =>
               Found pageContent
                 (Deno_readTextFile fs (pageDirOf (pagePath found) +:+ "/get.yaml"))
                 (params found)
           end
       end.
Proof.
  unfold fetchPage. steps.
  destruct (findPageWithParams fs path) as [found|]; [|by steps].
  steps. rewrite result_readTextFile.
  destruct (Deno_readTextFile fs (pagePath found)) as [pageContent|]; [|by steps].
  steps. cbn zeta. steps. rewrite result_readTextFile.
  destruct (Deno_readTextFile fs _); by steps.
Qed.

Lemma result_pageData P fs found query ds :
  result (let yamlContent :=
            Deno_readTextFile fs (pageDirOf (pagePath found) +:+ "/get.yaml") in
          let params := paramsValue (params found) in
          if has_text yamlContent
          then fetchData P yamlContent params query ds
          else
            log level_info "No YAML data found, serving with parameters and query only"
              (VObj (readContext params query));;
            ret (VObj (readContext params query)))
  = Ok (pageData P fs found query ds).
Proof.
  unfold pageData. cbn zeta.
  destruct (Deno_readTextFile fs _) as [text|] eqn:Hy; cbn [has_text]; [|by steps].
  destruct (Str.nonempty text) eqn:Ht; [|by steps].
  by apply fetchData_run.
Qed.




(** ** More on the resolver *)

Lemma first_result_is_Some {A B} (body : A → option B) l x :
  x ∈ l → is_Some (body x) → is_Some (first_result body l).
Proof.
  induction l as [|y l IH]; [by intros ?%elem_of_nil|].
  intros [->|Hin]%elem_of_cons Hx; cbn.
  - destruct Hx as [b ->]. by eexists.
  - destruct (body y); [by eexists|by apply IH].
Qed.

Lemma searchPath_route fs segments : ∀ cur p m,
  searchPath fs segments cur p = Some m →
  ∃ ds, route fs cur segments ds
        ∧ pagePath m = pathUnder cur ds +:+ "/index.html"
        ∧ params m = bindAll p segments ds.
Proof.
  induction segments as [|segment rest IH]; intros cur p m; cbn [searchPath].
  { destruct (Deno_stat _ _) eqn:Hs; [|done]. intros [= <-]. by exists []. }
  destruct (Deno_readDir fs cur) as [es|] eqn:Hrd; [|done].
  intros (e & He & Hbody)%first_result_Some.
  destruct (isDirectory e) eqn:Hdir; [|done]. cbn in Hbody.
  destruct (String.eqb_spec (name e) segment) as [Heq|Hne].
  - apply IH in Hbody as (ds & Hr & Hp & Hb).
    exists (segment :: ds). cbn. unfold bindLevel. rewrite String.eqb_refl.
    repeat split; [by exists es, e|by left|done..].
  - destruct (_ && _) eqn:Hbr; [|done].
    apply IH in Hbody as (ds & Hr & Hp & Hb).
    exists (name e :: ds). cbn. unfold bindLevel.
    destruct (String.eqb_spec (name e) segment); [done|].
    repeat split; [by exists es, e|by right|done..].
Qed.

Lemma route_found fs segments : ∀ cur p ds,
  route fs cur segments ds → is_Some (searchPath fs segments cur p).
Proof.
  induction segments as [|segment rest IH]; intros cur p [|d ds]; cbn; try done.
  { intros ->. by eexists. }
  intros [(es & e & -> & He & <- & Hdir) [Hent Hr]].
  apply (first_result_is_Some _ _ e He). rewrite Hdir. cbn [negb].
  destruct (String.eqb_spec (name e) segment) as [Heq|Hne].
  - rewrite <- Heq. by eapply IH.
  - destruct Hent as [|Hbr]; [done|]. unfold bracketed in Hbr. rewrite Hbr.
    by eapply IH.
Qed.

(** X1. The recursive search finds a page exactly when a route exists, and
    the resolver reports not-found exactly when there is neither a content
    file at the exact location nor a route from the page root. *)
Theorem found_iff_route fs path segments cur p :
  (is_Some (searchPath fs segments cur p) ↔ ∃ ds, route fs cur segments ds)
  ∧ (findPageWithParams fs path = None
     ↔ Deno_stat fs (exactPathOf path) = false
       ∧ ¬ ∃ ds, route fs "./pages" (pathSegmentsOf path) ds).
Proof.
  assert (∀ segs c q, is_Some (searchPath fs segs c q) ↔ ∃ ds, route fs c segs ds)
    as Hiff.
  { intros segs c q. split.
    - intros [m (ds & Hr & _)%searchPath_route]. by exists ds.
    - intros [ds Hr]. by eapply route_found. }
  split; [apply Hiff|].
  unfold findPageWithParams. fold (pathSegmentsOf path).
  destruct (Deno_stat fs (exactPathOf path)).
  - split; [done|by intros [? _]].
  - rewrite <- Hiff, <- eq_None_not_Some. split; [done|by intros [_ ?]].
Qed.

Lemma bindAll_values k v : ∀ segments ds p,
  Forall2 enters segments ds →
  bindAll p segments ds !! k = Some v →
  p !! k = Some v
  ∨ (v ∈ segments ∧ ∃ d, d ∈ ds ∧ bracketed d = true ∧ k = Str.slice_1_m1 d).
Proof.
  induction segments as [|s segments IH]; intros ds p Hent; [by left|].
  destruct ds as [|d ds]; [by left|]. apply Forall2_cons in Hent as [Hd Hent].
  cbn [bindAll]. intros [Hk|(Hv & d' & Hd' & Hbr & ->)]%(IH _ _ Hent).
  - unfold bindLevel in Hk. destruct (String.eqb_spec d s) as [|Hne]; [by left|].
    apply lookup_insert_Some in Hk as [[<- <-]|[_ Hk]]; [|by left].
    right. split; [left|]. exists d. split; [left|].
    by destruct Hd.
  - right. split; [by right|]. exists d'. split; [by right|done].
Qed.

Lemma route_enters fs : ∀ segments ds cur,
  route fs cur segments ds → Forall2 enters segments ds.
Proof.
  induction segments as [|s segments IH]; intros [|d ds] cur; cbn; try done.
  intros (_ & Hd & Hr). constructor; [done|by eapply IH].
Qed.



(** X3. Leading, trailing and repeated slashes do not matter: two paths
    with the same non-empty pieces are both not found, or both found with
    the same parameters at the same place of the tree. *)
Theorem slashes_do_not_matter fs path1 path2 :
  pathSegmentsOf path1 = pathSegmentsOf path2 →
  match findPageWithParams fs path1, findPageWithParams fs path2 with
  | Some m1, Some m2 =>
      params m1 = params m2 ∧ resolve fs (pagePath m1) = resolve fs (pagePath m2)
  | None, None => True
  | _, _ => False
  end.
Proof.
  intros Hsegs.
  assert (joinedPathOf path1 = joinedPathOf path2) as Hj.
  { unfold joinedPathOf. fold (pathSegmentsOf path1) (pathSegmentsOf path2).
    by rewrite Hsegs. }
  pose proof (resolve_exact_joined fs path1) as H1.
  pose proof (resolve_exact_joined fs path2) as H2.
  unfold findPageWithParams, Deno_stat. cbv zeta.
  fold (pathSegmentsOf path1) (pathSegmentsOf path2).
  rewrite H1, H2, Hj, Hsegs.
  destruct (resolve fs (joinedPathOf path2)) eqn:Hr.
  - cbn [pagePath params]. split; [done|]. by rewrite H1, H2, Hj.
  - by destruct (searchPath fs (pathSegmentsOf path2) "./pages" ∅).
Qed.

Lemma slashes_do_not_matter_witness :
  match findPageWithParams samplePages "test/456/x/789",
        findPageWithParams samplePages "/test//456/x/789/" with
  | Some m1, Some m2 =>
      params m1 = params m2
      ∧ resolve samplePages (pagePath m1) = resolve samplePages (pagePath m2)
  | None, None => True
  | _, _ => False
  end.
Proof.
  exact (slashes_do_not_matter samplePages "test/456/x/789" "/test//456/x/789/"
           eq_refl).
Defined.

(** X4. At one level a directory named as the segment gives the result
    when it leads to a page and nothing listed before it does: no entry
    before it bears the same name, and every bracketed directory before it
    fails for the remaining segments. *)
Theorem literal_directory_wins_unless_preceded fs segment rest cur p es0 e es1 r :
  Deno_readDir fs cur = Some (es0 ++ e :: es1) →
  isDirectory e = true →
  name e = segment →
  searchPath fs rest (cur +:+ "/" +:+ segment) p = Some r →
  Forall (fun e' => name e' ≠ segment) es0 →
  Forall (fun e' => isDirectory e' = true → bracketed (name e') = true →
            searchPath fs rest (cur +:+ "/" +:+ name e')
              (<[Str.slice_1_m1 (name e') := segment]> p) = None) es0 →
  searchPath fs (segment :: rest) cur p = Some r.
Proof.
  intros Hrd Hdir Hname Hr Hnames Hfail.
  apply (searchPath_first_listed fs segment rest cur p es0 e es1 r); try done.
  apply Forall_forall. intros e' He'.
  rewrite Forall_forall in Hnames, Hfail.
  destruct (isDirectory e') eqn:Hd; [right|by left].
  split; [by apply Hnames|]. fold (bracketed (name e')).
  destruct (bracketed (name e')) eqn:Hb; [right|by left].
  by apply Hfail.
Qed.

Lemma literal_directory_wins_unless_preceded_witness :
  searchPath samplePages ["about"] "./pages" ∅
  = Some {| pagePath := "./pages/about/index.html"; params := ∅ |}.
Proof.
  apply (literal_directory_wins_unless_preceded samplePages "about" [] "./pages" ∅
           [{| name := "index.html"; isDirectory := false |}]
           {| name := "about"; isDirectory := true |}
           [{| name := "[userId]"; isDirectory := true |};
            {| name := "test"; isDirectory := true |}]);
    [reflexivity..| |].
  - by repeat constructor.
  - by repeat constructor.
Defined.

(** ** What computations log *)

Section Logged.
Context {A B : Type}.

Lemma logged_bind (m : M A) (f : A → M B) :
  logged (bind m f)
  = logged m ++ match result m with Ok a => logged (f a) | Throw _ => [] end.
Proof.
  destruct m as [l [a|t]]; cbn; [|by rewrite app_nil_r]. by destruct (f a).
Qed.

Lemma logged_try_catch (m : M A) (h : thrown → M A) :
  logged (try_catch m h)
  = logged m ++ match result m with Ok _ => [] | Throw t => logged (h t) end.
Proof.
  destruct m as [l [a|t]]; cbn; [by rewrite app_nil_r|]. by destruct (h t).
Qed.

End Logged.

Lemma logged_get_prop v k : logged (get_prop v k) = [].
Proof. destruct v; cbn; try done; by destruct (String.eqb k "length"). Qed.

Lemma logged_error_message t : logged (error_message t) = [].
Proof. destruct t; [done|apply logged_get_prop]. Qed.

(** ** More on the pipelines *)

Lemma fetchDataOutcome_context P text params query ds :
  fetchDataOutcome P text params query ds !! "params" = Some params
  ∧ fetchDataOutcome P text params query ds !! "query" = Some query.
Proof.
  assert (∀ m : gmap string value,
            (<["query" := query]> (<["params" := params]> m)) !! "params" = Some params
            ∧ (<["query" := query]> (<["params" := params]> m)) !! "query" = Some query)
    as Hctx.
  { intros m. by rewrite lookup_insert_ne, !lookup_insert_eq. }
  unfold fetchDataOutcome, readContext. rewrite <- insert_empty.
  destruct (handlebars P text _); [|apply Hctx].
  destruct (yaml_parse P _); [|apply Hctx].
  destruct (result (get_prop _ _)); [|apply Hctx].
  destruct (truthy _); [|apply Hctx].
  destruct (result (fetchDataStrategies _ _ _)); apply Hctx.
Qed.

Lemma handlePostOutcome_context P text params query formData ds :
  handlePostOutcome P text params query formData ds !! "params" = Some params
  ∧ handlePostOutcome P text params query formData ds !! "query" = Some query
  ∧ handlePostOutcome P text params query formData ds !! "formData" = Some formData.
Proof.
  assert (∀ m : gmap string value,
            let out := <["formData" := formData]> (<["query" := query]>
                         (<["params" := params]> m)) in
            out !! "params" = Some params ∧ out !! "query" = Some query
            ∧ out !! "formData" = Some formData)
    as Hctx.
  { intros m. cbn zeta.
    by rewrite !lookup_insert_eq, !(lookup_insert_ne _ "formData"),
      lookup_insert_ne, !lookup_insert_eq. }
  unfold handlePostOutcome, writeContext. rewrite <- insert_empty.
  destruct (handlebars P text _); [|apply Hctx].
  destruct (yaml_parse P _); [|apply Hctx].
  destruct (result (get_prop _ _)); [|apply Hctx].
  destruct (truthy _); [|apply Hctx].
  destruct (result (sendDataStrategies _ _ _)); apply Hctx.
Qed.


(** ** More on the dispatcher *)



(** X7. A handler that throws an [Error] object gives no result and throws
    nothing further; one error entry carries the message of what it threw. *)
Theorem handler_error_is_logged config context ds type strategy class msg :
  result (get_prop config "type") = Ok type →
  ds !! to_string type = Some strategy →
  strategy config context = Throw (ThrownError class msg) →
  executeFetchStrategy config context ds
  = ([{| level := level_error;
         message := "Strategy execution failed: " +:+ msg;
         data := VObj (<["error" := VStr msg]> {["type" := type]}) |}],
     Ok VUndefined)
  ∧ executeSendStrategy config context ds
    = ([{| level := level_error;
           message := "Send strategy execution failed: " +:+ msg;
           data := VObj (<["error" := VStr msg]> {["type" := type]}) |}],
       Ok VUndefined).
Proof.
  intros Ht Hd Hs. unfold executeFetchStrategy, executeSendStrategy.
  pose proof (logged_get_prop config "type") as Hl.
  destruct (get_prop config "type") as [l [t|]]; cbn in Ht, Hl; [|done].
  injection Ht as ->. subst l. cbn. by rewrite Hd, Hs.
Qed.

Lemma handler_error_is_logged_witness :
  executeFetchStrategy (operation "error" "testData" "config1") VNull
    mockDataStrategies
  = ([{| level := level_error;
         message := "Strategy execution failed: Test error";
         data := VObj (<["error" := VStr "Test error"]> {["type" := VStr "error"]}) |}],
     Ok VUndefined).
Proof.
  exact (proj1 (handler_error_is_logged (operation "error" "testData" "config1")
                  VNull mockDataStrategies (VStr "error") errorStrategy
                  "Error" "Test error" eq_refl eq_refl eq_refl)).
Defined.

Lemma result_fetchEach_app context ds before : ∀ after results,
  result (fetchEach (before ++ after) context ds results)
  = match result (fetchEach before context ds results) with
    | Ok results' => result (fetchEach after context ds results')
    | Throw t => Throw t
    end.
Proof.
  induction before as [|c before IH]; intros after results; [done|].
  cbn [app fetchEach]. steps.
  destruct (result (executeFetchStrategy c context ds)); [|done].
  steps. destruct (result (collect c a results)); [|done]. apply IH.
Qed.

Lemma result_sendEach_app context ds before : ∀ after results,
  result (sendEach (before ++ after) context ds results)
  = match result (sendEach before context ds results) with
    | Ok results' => result (sendEach after context ds results')
    | Throw t => Throw t
    end.
Proof.
  induction before as [|c before IH]; intros after results; [done|].
  cbn [app sendEach]. steps.
  destruct (result (executeSendStrategy c context ds)); [|done].
  steps. destruct (result (collect c a results)); [|done]. apply IH.
Qed.

Lemma dispatched_has_properties config context ds r :
  result (executeFetchStrategy config context ds) = Ok r
  ∨ result (executeSendStrategy config context ds) = Ok r →
  ∃ key, result (get_prop config "key") = Ok key.
Proof.
  unfold executeFetchStrategy, executeSendStrategy. rewrite !result_bind.
  destruct config; cbn; intros [?|?]; try done; eauto;
    destruct (String.eqb _ _); eauto.
Qed.

(** X8. In a list of operations, one that ends without a result (unknown
    type, a handler that failed or returned nothing) is as good as not
    declared: the results of the list are those of the list without it. *)
Theorem operation_without_result_is_skipped context ds before c after :
  (result (executeFetchStrategy c context ds) = Ok VUndefined →
   result (fetchDataStrategies (VArr (before ++ c :: after)) context ds)
   = result (fetchDataStrategies (VArr (before ++ after)) context ds))
  ∧ (result (executeSendStrategy c context ds) = Ok VUndefined →
     result (sendDataStrategies (VArr (before ++ c :: after)) context ds)
     = result (sendDataStrategies (VArr (before ++ after)) context ds)).
Proof.
  split; intros Hc; cbn.
  - rewrite !result_fetchEach_app.
    destruct (result (fetchEach before context ds ∅)) as [acc|]; [|done].
    cbn [fetchEach]. steps. rewrite Hc. steps. rewrite result_collect.
    destruct (dispatched_has_properties c context ds VUndefined (or_introl Hc))
      as [key ->].
    by rewrite andb_false_r.
  - rewrite !result_sendEach_app.
    destruct (result (sendEach before context ds ∅)) as [acc|]; [|done].
    cbn [sendEach]. steps. rewrite Hc. steps. rewrite result_collect.
    destruct (dispatched_has_properties c context ds VUndefined (or_intror Hc))
      as [key ->].
    by rewrite andb_false_r.
Qed.

Lemma operation_without_result_is_skipped_witness :
  result (fetchDataStrategies
            (VArr ([operation "test" "a" "first"]
                   ++ operation "error" "b" "second"
                   :: [operation "test" "c" "third"]))
            (VObj (readContext sampleParams (VObj ∅))) mockDataStrategies)
  = Ok (<["c" := testResult "third"]> {["a" := testResult "first"]}).
Proof.
  rewrite (proj1 (operation_without_result_is_skipped
                    (VObj (readContext sampleParams (VObj ∅))) mockDataStrategies
                    [operation "test" "a" "first"]
                    (operation "error" "b" "second")
                    [operation "test" "c" "third"]) eq_refl).
  reflexivity.
Defined.

(** ** More on the write flow *)

(** X9. A POST to a path that resolves to no page is answered 404 "Page not
    found" whatever the request holds: the body is not decoded, no
    write-config is looked for, and the log holds the announcement and one
    warning. *)
Theorem post_to_unmatched_path P fs path req ds :
  findPageWithParams fs path = None →
  handlePostRequest P fs path req ds
  = ([{| level := level_info;
         message := "Handling POST request for path: " +:+ path;
         data := VObj {["path" := VStr path]} |};
      {| level := level_warn;
         message := "Page not found for POST: " +:+ path;
         data := VObj {["path" := VStr path]} |}],
     Ok notFoundResponse).
Proof. intros Hf. unfold handlePostRequest. by rewrite Hf. Qed.

Lemma post_to_unmatched_path_witness :
  result (handlePostRequest samplePlatform formTree "nonexistent/deep/path"
            {| contentType := Some "multipart/form-data"; body := "" |}
            mockDataStrategies)
  = Ok notFoundResponse.
Proof.
  by rewrite (post_to_unmatched_path samplePlatform formTree "nonexistent/deep/path"
                {| contentType := Some "multipart/form-data"; body := "" |}
                mockDataStrategies eq_refl).
Defined.

(** X10. A POST to a page without a write-config in its directory is
    answered 405 "Method not allowed" before the body is looked at: the
    answer is the same for every request and every platform, also for a
    body no decoder accepts. *)
Theorem post_without_write_config P fs path req ds found :
  findPageWithParams fs path = Some found →
  isPostAllowed fs (pagePath found) = false →
  result (handlePostRequest P fs path req ds) = Ok methodNotAllowedResponse.
Proof.
  intros Hf Ha. unfold handlePostRequest. rewrite Hf. cbn zeta. by rewrite Ha.
Qed.

Lemma post_without_write_config_witness :
  result (handlePostRequest samplePlatform samplePages "about"
            {| contentType := Some "multipart/form-data"; body := "" |}
            mockDataStrategies)
  = Ok methodNotAllowedResponse.
Proof.
  exact (post_without_write_config samplePlatform samplePages "about"
           {| contentType := Some "multipart/form-data"; body := "" |}
           mockDataStrategies
           {| pagePath := "./pages/about/index.html"; params := ∅ |}
           eq_refl eq_refl).
Defined.



Lemma fold_assign_lookup {A} (f : A → value) k (pairs : list (string * A)) :
  ∀ acc : gmap string value,
    fold_left (fun result kv => <[kv.1 := f kv.2]> result) pairs acc !! k
    = match lastValue k pairs with
      | Some a => Some (f a)
      | None => acc !! k
      end.
Proof.
  induction pairs as [|[k' a] pairs IH]; intros acc; [done|].
  cbn [fold_left lastValue]. rewrite IH. cbn.
  destruct (lastValue k pairs); [done|].
  destruct (String.eqb_spec k' k) as [->|Hne].
  - apply lookup_insert_eq.
  - by apply lookup_insert_ne.
Qed.

(** X12. Decoding pairs: for a URL-encoded body, and for a multipart body
    the platform decodes, the form maps every key to the value of its last
    pair, a text field as a string and a file as its name and declared
    type; a key no pair has is absent. *)
Theorem form_keeps_last_pair P req k :
  declares (contentType req) "application/json" = false →
  (declares (contentType req) "application/x-www-form-urlencoded" = true →
   ∃ form, parseFormData P req = ret (VObj form)
     ∧ form !! k = VStr <$> lastValue k (URLSearchParams P (body req)))
  ∧ (declares (contentType req) "application/x-www-form-urlencoded" = false →
     declares (contentType req) "multipart/form-data" = true →
     ∀ fields, req_formData P req = Returns fields →
     ∃ form, parseFormData P req = ret (VObj form)
       ∧ form !! k = fieldValue <$> lastValue k fields).
Proof.
  intros Hj. unfold parseFormData. rewrite Hj. split.
  - intros ->. eexists. split; [done|].
    unfold assignAll. rewrite fold_assign_lookup.
    by destruct (lastValue k _).
  - intros -> -> fields ->. eexists. split; [done|].
    unfold assignAll. rewrite fold_assign_lookup.
    by destruct (lastValue k _).
Qed.

Lemma form_keeps_last_pair_witness :
  (∃ form,
     parseFormData formPlatform
       {| contentType := Some "application/x-www-form-urlencoded";
          body := "name=First&age=25&name=Second" |} = ret (VObj form)
     ∧ form !! "name" = Some (VStr "Second"))
  ∧ (∃ form,
       parseFormData formPlatform
         {| contentType := Some "multipart/form-data; boundary=x";
            body := "name, avatar" |} = ret (VObj form)
       ∧ form !! "avatar"
         = Some (VObj (<["type" := VStr "image/png"]> {["filename" := VStr "me.png"]}))).
Proof.
  split.
  - exact (proj1 (form_keeps_last_pair formPlatform
                    {| contentType := Some "application/x-www-form-urlencoded";
                       body := "name=First&age=25&name=Second" |} "name" eq_refl)
             eq_refl).
  - exact (proj2 (form_keeps_last_pair formPlatform
                    {| contentType := Some "multipart/form-data; boundary=x";
                       body := "name, avatar" |} "avatar" eq_refl)
             eq_refl eq_refl _ eq_refl).
Defined.

(** X13. Decoding degrades instead of failing: without a content type, with
    one that names none of the three encodings, and with a JSON body that
    does not parse, the form is the empty object, whatever the body. *)
Theorem form_degrades_to_empty P req :
  (declares (contentType req) "application/json" = false →
   declares (contentType req) "application/x-www-form-urlencoded" = false →
   declares (contentType req) "multipart/form-data" = false →
   parseFormData P req = ret (VObj ∅))
  ∧ (contentType req = None → parseFormData P req = ret (VObj ∅))
  ∧ (declares (contentType req) "application/json" = true →
     ∀ class msg, JSON_parse P (body req) = Raises class msg →
     parseFormData P req = ret (VObj ∅)).
Proof.
  unfold parseFormData. repeat split.
  - by intros -> -> ->.
  - by intros ->.
  - by intros -> class msg ->.
Qed.

(** ** More on the read flow *)

(** X14. Loading a page never throws. The page is reported as not found
    exactly when the path resolves to nothing or the resolved content file
    cannot be read; a found page carries the resolver's parameters, and the
    text of [get.yaml] next to the content file when that can be read,
    nothing otherwise. *)
Theorem fetchPage_reports fs path :
  ∃ r, result (fetchPage fs path) = Ok r
    ∧ (r = NotFound ↔
       ∀ m, findPageWithParams fs path = Some m →
            Deno_readTextFile fs (pagePath m) = None)
    ∧ ∀ pageContent yamlContent ps,
        r = Found pageContent yamlContent ps →
        ∃ m, findPageWithParams fs path = Some m
          ∧ Deno_readTextFile fs (pagePath m) = Some pageContent
          ∧ yamlContent
            = Deno_readTextFile fs (pageDirOf (pagePath m) +:+ "/get.yaml")
          ∧ ps = params m.
Proof.
  eexists. split; [apply result_fetchPage|].
  destruct (findPageWithParams fs path) as [m|]; [|by split].
  destruct (Deno_readTextFile fs (pagePath m)) as [c|] eqn:Hc.
  - split.
    + split; [done|]. intros H. specialize (H m eq_refl). congruence.
    + intros ??? [= <- <- <-]. by exists m.
  - split; [|done]. split; [|done]. by intros _ ? [= <-].
Qed.

(** X15. A read of a path that resolves to no page is answered 404 "Page
    not found" on every platform and registry; the log holds the two
    announcements and the warning of each layer. *)
Theorem get_of_unmatched_path P fs path query ds :
  findPageWithParams fs path = None →
  renderPage P fs path query ds
  = ([{| level := level_info; message := "Rendering page for path: " +:+ path;
         data := VObj {["path" := VStr path]} |};
      {| level := level_info; message := "Fetching page for path: " +:+ path;
         data := VObj {["path" := VStr path]} |};
      {| level := level_warn; message := "Page not found for path: " +:+ path;
         data := VObj {["path" := VStr path]} |};
      {| level := level_warn; message := "Page not found for path: " +:+ path;
         data := VObj {["path" := VStr path]} |}],
     Ok notFoundResponse).
Proof. intros Hf. unfold renderPage, fetchPage. by rewrite Hf. Qed.

Lemma get_of_unmatched_path_witness :
  result (renderPage samplePlatform samplePages "definitely-non-existent/deep/path"
            (VObj ∅) mockDataStrategies)
  = Ok notFoundResponse.
Proof.
  by rewrite (get_of_unmatched_path samplePlatform samplePages
                "definitely-non-existent/deep/path" (VObj ∅) mockDataStrategies
                eq_refl).
Defined.

Lemma is_space_lowerChar c : Ascii.is_space (Str.lowerChar c) = Ascii.is_space c.
Proof. by destruct c as [[] [] [] [] [] [] [] []]. Qed.

Lemma toLowerCase_rev_app s : ∀ acc,
  Str.toLowerCase (String.rev_app s acc)
  = String.rev_app (Str.toLowerCase s) (Str.toLowerCase acc).
Proof. induction s as [|c s IH]; intros acc; [done|]. cbn. by rewrite IH. Qed.

Lemma toLowerCase_trimStart s :
  Str.toLowerCase (Str.trimStart s) = Str.trimStart (Str.toLowerCase s).
Proof.
  induction s as [|c s IH]; [done|]. cbn [Str.trimStart Str.toLowerCase].
  rewrite is_space_lowerChar. by destruct (Ascii.is_space c).
Qed.

Lemma toLowerCase_trim s :
  Str.toLowerCase (Str.trim s) = Str.trim (Str.toLowerCase s).
Proof.
  unfold Str.trim, String.rev.
  by rewrite toLowerCase_rev_app, toLowerCase_trimStart, toLowerCase_rev_app,
    toLowerCase_trimStart.
Qed.

Lemma lowerChar_idemp c : Str.lowerChar (Str.lowerChar c) = Str.lowerChar c.
Proof. by destruct c as [[] [] [] [] [] [] [] []]. Qed.

Lemma toLowerCase_idemp s : Str.toLowerCase (Str.toLowerCase s) = Str.toLowerCase s.
Proof. induction s as [|c s IH]; [done|]. cbn. by rewrite lowerChar_idemp, IH. Qed.

Lemma trimStart_blank ws s :
  blank ws = true → Str.trimStart (ws +:+ s) = Str.trimStart s.
Proof.
  induction ws as [|c ws IH]; [done|]. cbn [blank].
  intros [Hc Hws]%andb_true_iff. rewrite append_cons. cbn [Str.trimStart].
  rewrite Hc. by apply IH.
Qed.

(** X16. Whether a content body is a full document is decided by its text
    alone up to letter case, and white space before it does not count. *)
Theorem full_document_marker s1 s2 ws :
  (Str.toLowerCase s1 = Str.toLowerCase s2 → isPureHtml s1 = isPureHtml s2)
  ∧ (blank ws = true → isPureHtml (ws +:+ s1) = isPureHtml s1).
Proof.
  unfold isPureHtml. split.
  - intros Heq. by rewrite !toLowerCase_trim, Heq.
  - intros Hws. unfold Str.trim. by rewrite trimStart_blank.
Qed.

Example full_document_marker_examples :
  isPureHtml "
  <!DOCTYPE HTML><html></html>" = true
  ∧ isPureHtml "<h1>{{title}}</h1><!doctype html>" = false.
Proof. split; reflexivity. Qed.

(** ** The server's handlers *)

Lemma throws_errors_throw_error {A} class msg :
  throws_errors (throw (ThrownError class msg) : M A).
Proof. done. Qed.

Lemma throws_errors_upperMethod method : throws_errors (upperMethod method).
Proof. by destruct method. Qed.

Lemma requestStrategy_throws_errors P B config context v :
  requestStrategy P B config context ≠ Throw (ThrownValue v).
Proof.
  unfold requestStrategy. revert v.
  match goal with |- ∀ v, result ?m ≠ _ => change (throws_errors m) end.
  throws_errors; [apply throws_errors_upperMethod|].
  destruct (negb _); [done|]. destruct (declares _ _); throws_errors.
Qed.

Lemma sqliteStrategy_throws_errors B config context v :
  sqliteStrategy B config context ≠ Throw (ThrownValue v).
Proof.
  unfold sqliteStrategy. revert v.
  match goal with |- ∀ v, result ?m ≠ _ => change (throws_errors m) end.
  throws_errors.
  destruct (truthy _); [|done]. by destruct a2.
Qed.

Lemma dataStrategies_lookup P B k strategy :
  dataStrategies P B !! k = Some strategy →
  strategy = requestStrategy P B ∨ strategy = sqliteStrategy B.
Proof.
  unfold dataStrategies.
  intros [[_ <-]|[_ [_ <-]%lookup_singleton_Some]]%lookup_insert_Some; auto.
Qed.

Lemma get_prop_defined config k :
  config ≠ VNull → config ≠ VUndefined → ∃ v, get_prop config k = ret v.
Proof. destruct config; cbn; try done; eauto; destruct (String.eqb _ _); eauto. Qed.



Lemma dataStrategies_request P B :
  dataStrategies P B !! "request" = Some (requestStrategy P B).
Proof. reflexivity. Qed.

Lemma dataStrategies_sqlite P B :
  dataStrategies P B !! "sqlite" = Some (sqliteStrategy B).
Proof. reflexivity. Qed.

(** the options [requestStrategy] calls [fetch] with *)
Lemma requestStrategy_run P B m context method :
  result (upperMethod (orDefault (default VUndefined (m !! "method")) (VStr "GET")))
    = Ok method →
  requestStrategy P B (VObj m) context
  = match fetch B (default VUndefined (m !! "url"))
            {| fetchMethod := method;
               fetchHeaders := orDefault (default VUndefined (m !! "headers")) (VObj ∅);
               fetchBody := if truthy (default VUndefined (m !! "body"))
                            then Some (default VUndefined (m !! "body")) else None |}
    with
    | Raises class msg => Throw (ThrownError class msg)
    | Returns response =>
        if negb (fetchOk response) then
          Throw (ThrownError "Error"
                   ("HTTP " +:+ pretty (fetchStatus response) +:+ ": "
                    +:+ fetchStatusText response))
        else if declares (fetchContentType response) "application/json" then
          match JSON_parse P (fetchText response) with
          | Returns v => Ok v
          | Raises class msg => Throw (ThrownError class msg)
          end
        else Ok (VStr (fetchText response))
    end.
Proof.
  intros Hm. unfold requestStrategy. cbn [get_prop]. steps. rewrite Hm. steps.
  destruct (fetch B _ _) as [response|]; [|done]. steps.
  destruct (negb _); [done|]. destruct (declares _ _); [|done].
  steps. by destruct (JSON_parse P _).
Qed.

(** X18. A [request] operation whose call fails (the network raises, or
    the answer is not a 2xx) gives no result: nothing is collected under
    its key, and the log holds the failure, for a refused status as
    ["HTTP <status>: <status text>"]. *)
Theorem failed_request_is_omitted P B m context method :
  m !! "type" = Some (VStr "request") →
  result (upperMethod (orDefault (default VUndefined (m !! "method")) (VStr "GET")))
    = Ok method →
  let options :=
    {| fetchMethod := method;
       fetchHeaders := orDefault (default VUndefined (m !! "headers")) (VObj ∅);
       fetchBody := if truthy (default VUndefined (m !! "body"))
                    then Some (default VUndefined (m !! "body")) else None |} in
  let failure :=
    match fetch B (default VUndefined (m !! "url")) options with
    | Raises _ msg => Some msg
    | Returns response =>
        if fetchOk response then None
        else Some ("HTTP " +:+ pretty (fetchStatus response) +:+ ": "
                   +:+ fetchStatusText response)
    end in
  ∀ msg, failure = Some msg →
    executeFetchStrategy (VObj m) context (dataStrategies P B)
    = ([{| level := level_error;
           message := "Strategy execution failed: " +:+ msg;
           data := VObj (<["error" := VStr msg]> {["type" := VStr "request"]}) |}],
       Ok VUndefined)
    ∧ result (fetchDataStrategies (VObj m) context (dataStrategies P B)) = Ok ∅.
Proof.
  intros Ht Hm options failure msg Hfail.
  assert (∃ class, requestStrategy P B (VObj m) context
                   = Throw (ThrownError class msg)) as [class Hthrow].
  { rewrite (requestStrategy_run P B m context method Hm). fold options.
    subst failure. destruct (fetch B _ options) as [response|class msg'].
    - destruct (fetchOk response); [done|]. injection Hfail as <-. by eexists.
    - injection Hfail as <-. by eexists. }
  assert (executeFetchStrategy (VObj m) context (dataStrategies P B)
          = ([{| level := level_error;
                 message := "Strategy execution failed: " +:+ msg;
                 data := VObj (<["error" := VStr msg]> {["type" := VStr "request"]}) |}],
             Ok VUndefined)) as Hexec.
  { unfold executeFetchStrategy. cbn [get_prop]. rewrite Ht. cbn [default from_option].
    cbn [bind ret to_string]. rewrite dataStrategies_request.
    by rewrite Hthrow. }
  split; [done|].
  unfold fetchDataStrategies. cbn [truthy negb]. steps. rewrite Hexec. cbn [result snd].
  rewrite result_collect. cbn [get_prop]. steps. by rewrite andb_false_r.
Qed.

Lemma failed_request_is_omitted_witness :
  executeFetchStrategy
    (VObj (<["url" := VStr "https://example.com/missing"]>
             (<["key" := VStr "user"]> {["type" := VStr "request"]})))
    VNull (dataStrategies samplePlatform sampleBackends)
  = ([{| level := level_error;
         message := "Strategy execution failed: HTTP 404: Not Found";
         data := VObj (<["error" := VStr "HTTP 404: Not Found"]>
                         {["type" := VStr "request"]}) |}],
     Ok VUndefined).
Proof.
  exact (proj1 (failed_request_is_omitted samplePlatform sampleBackends
                  (<["url" := VStr "https://example.com/missing"]>
                     (<["key" := VStr "user"]> {["type" := VStr "request"]}))
                  VNull "GET" eq_refl eq_refl "HTTP 404: Not Found" eq_refl)).
Defined.



(** ** The server *)

Lemma split_dot_nonnil s : split_dot s ≠ [].
Proof.
  destruct s as [|c r]; [done|]. cbn.
  destruct (Ascii.eqb c "."); [done|]. by destruct (split_dot r).
Qed.

Lemma split_dot_app a b :
  split_dot (a +:+ "." +:+ b) = split_dot a ++ split_dot b.
Proof.
  induction a as [|c a IH]; [done|].
  rewrite append_cons. cbn [split_dot]. rewrite IH.
  destruct (Ascii.eqb c "."); [done|].
  pose proof (split_dot_nonnil a). by destruct (split_dot a).
Qed.

Lemma split_dot_no_dot s : has_dot s = false → split_dot s = [s].
Proof.
  induction s as [|c r IH]; [done|]. cbn.
  destruct (Ascii.eqb c "."); [done|]. cbn. intros H. by rewrite IH.
Qed.



Lemma result_handler P B fs req :
  result (handler P B fs req)
  = match serveStatic fs (pathname req) with
    | Some staticResponse => Ok staticResponse
    | None =>
        if String.eqb (httpMethod req) "POST"
        then result (handlePostRequest P fs (slice_1 (pathname req)) (httpRequest req)
                       (dataStrategies P B))
        else result (renderPage P fs (slice_1 (pathname req))
                       (VObj (assignAll VStr (searchParams req))) (dataStrategies P B))
    end.
Proof.
  unfold handler. steps. destruct (serveStatic fs (pathname req)); [done|].
  by destruct (String.eqb _ _).
Qed.





(** ** Loading the templates *)

Lemma registerEach_source fs dir k c files : ∀ partials,
  registerEach fs dir files partials !! k = Some c →
  partials !! k = Some c
  ∨ ∃ file, file ∈ files ∧ endsWith ".hbs" (name file) = true
      ∧ k = Str.removeFirst ".hbs" (name file)
      ∧ Deno_readTextFile fs (dir +:+ "/" +:+ name file) = Some c.
Proof.
  induction files as [|file files IH]; intros partials; cbn [registerEach]; [by left|].
  destruct (endsWith ".hbs" (name file)) eqn:He.
  - destruct (Deno_readTextFile fs _) as [content|] eqn:Hr; [|by left].
    intros [Hk|(f & Hf & ?)]%IH.
    + apply lookup_insert_Some in Hk as [[<- <-]|[_ Hk]]; [|by left].
      right. exists file. by split; [left|].
    + right. exists f. by split; [right|].
  - intros [Hk|(f & Hf & ?)]%IH; [by left|].
    right. exists f. by split; [right|].
Qed.

Lemma registerEach_keeps fs dir k files : ∀ partials,
  Forall (fun file => endsWith ".hbs" (name file) = true →
                      Str.removeFirst ".hbs" (name file) ≠ k) files →
  registerEach fs dir files partials !! k = partials !! k.
Proof.
  induction files as [|file files IH]; intros partials Hfiles; [done|].
  apply Forall_cons in Hfiles as [Hfile Hfiles]. cbn [registerEach].
  destruct (endsWith ".hbs" (name file)); [|by apply IH].
  destruct (Deno_readTextFile fs _); [|done].
  rewrite IH by done. apply lookup_insert_ne. by apply Hfile.
Qed.

Lemma registerEach_registers fs dir file c before after : ∀ partials,
  Forall (fun b => endsWith ".hbs" (name b) = true →
                   is_Some (Deno_readTextFile fs (dir +:+ "/" +:+ name b))) before →
  endsWith ".hbs" (name file) = true →
  Deno_readTextFile fs (dir +:+ "/" +:+ name file) = Some c →
  Forall (fun a => endsWith ".hbs" (name a) = true →
                   Str.removeFirst ".hbs" (name a)
                   ≠ Str.removeFirst ".hbs" (name file)) after →
  registerEach fs dir (before ++ file :: after) partials
    !! Str.removeFirst ".hbs" (name file) = Some c.
Proof.
  induction before as [|b before IH]; intros partials Hb He Hr Ha.
  - cbn [app registerEach]. rewrite He, Hr.
    rewrite registerEach_keeps by done. apply lookup_insert_eq.
  - apply Forall_cons in Hb as [Hb Hbefore]. cbn [app registerEach].
    destruct (endsWith ".hbs" (name b)); [|by apply IH].
    destruct (Hb eq_refl) as [cb ->]. by apply IH.
Qed.

(** X23. What the engine holds after the templates are loaded: every name
    it has come to hold is the name of a listed [.hbs] file of the layouts
    or the partials directory without its (first) [.hbs], with the text of
    that file; and the load happens once: a later call changes nothing,
    whatever the tree has become. *)
Theorem templates_come_from_hbs_files fs fs' t k c :
  templatesLoaded t = false →
  registered (ensureTemplatesLoaded fs t) !! k = Some c →
  (registered t !! k = Some c
   ∨ ∃ dir files file,
       (dir = "./templates/layouts" ∨ dir = "./templates/partials")
       ∧ Deno_readDir fs dir = Some files ∧ file ∈ files
       ∧ endsWith ".hbs" (name file) = true
       ∧ k = Str.removeFirst ".hbs" (name file)
       ∧ Deno_readTextFile fs (dir +:+ "/" +:+ name file) = Some c)
  ∧ ensureTemplatesLoaded fs' (ensureTemplatesLoaded fs t) = ensureTemplatesLoaded fs t.
Proof.
  intros Ht. unfold ensureTemplatesLoaded. rewrite Ht. cbn [registered templatesLoaded].
  intros Hk. split; [|done].
  unfold loadPartials, loadLayouts, loadDirectory in Hk.
  destruct (Deno_readDir fs "./templates/partials") as [ps|] eqn:Hps.
  - apply registerEach_source in Hk as [Hk|(file & ? & ? & ? & ?)].
    2:{ right. exists "./templates/partials", ps, file. by repeat split; [right|..]. }
    destruct (Deno_readDir fs "./templates/layouts") as [ls|] eqn:Hls; [|by left].
    apply registerEach_source in Hk as [Hk|(file & ? & ? & ? & ?)]; [by left|].
    right. exists "./templates/layouts", ls, file. by repeat split; [left|..].
  - destruct (Deno_readDir fs "./templates/layouts") as [ls|] eqn:Hls; [|by left].
    apply registerEach_source in Hk as [Hk|(file & ? & ? & ? & ?)]; [by left|].
    right. exists "./templates/layouts", ls, file. by repeat split; [left|..].
Qed.

Lemma templates_come_from_hbs_files_witness :
  registered (ensureTemplatesLoaded siteTree
                {| templatesLoaded := false; registered := ∅ |})
  = <["nav.hbs" := "<nav></nav>"]> {["layout" := "<main>{{{body}}}</main>"]}
  ∧ ensureTemplatesLoaded samplePages
      (ensureTemplatesLoaded siteTree {| templatesLoaded := false; registered := ∅ |})
    = ensureTemplatesLoaded siteTree {| templatesLoaded := false; registered := ∅ |}.
Proof.
  split; [reflexivity|].
  exact (proj2 (templates_come_from_hbs_files siteTree samplePages
                  {| templatesLoaded := false; registered := ∅ |}
                  "layout" "<main>{{{body}}}</main>" eq_refl eq_refl)).
Defined.

(** X24. Partials are registered after layouts, into the same names: a
    readable [.hbs] file of the partials directory, once the files listed
    before it have been read, holds its name, whatever layout or earlier
    template had that name, unless a file listed after it claims the name. *)
Theorem partial_replaces_layout fs t files file c before after :
  templatesLoaded t = false →
  Deno_readDir fs "./templates/partials" = Some files →
  files = before ++ file :: after →
  Forall (fun b => endsWith ".hbs" (name b) = true →
            is_Some (Deno_readTextFile fs ("./templates/partials/" +:+ name b))) before →
  endsWith ".hbs" (name file) = true →
  Deno_readTextFile fs ("./templates/partials/" +:+ name file) = Some c →
  Forall (fun a => endsWith ".hbs" (name a) = true →
            Str.removeFirst ".hbs" (name a) ≠ Str.removeFirst ".hbs" (name file)) after →
  registered (ensureTemplatesLoaded fs t) !! Str.removeFirst ".hbs" (name file)
  = Some c.
Proof.
  intros Ht Hrd -> Hb He Hr Ha. unfold ensureTemplatesLoaded. rewrite Ht.
  cbn [registered]. unfold loadPartials, loadDirectory. rewrite Hrd.
  by apply registerEach_registers.
Qed.

Lemma partial_replaces_layout_witness :
  registered (ensureTemplatesLoaded siteTree
                {| templatesLoaded := false;
                   registered := {["layout" := "set before"]} |})
    !! "layout" = Some "<main>{{{body}}}</main>".
Proof.
  apply (partial_replaces_layout siteTree
           {| templatesLoaded := false; registered := {["layout" := "set before"]} |}
           [{| name := "layout.hbs"; isDirectory := false |};
            {| name := "nav.hbs.hbs"; isDirectory := false |}]
           {| name := "layout.hbs"; isDirectory := false |}
           "<main>{{{body}}}</main>" []
           [{| name := "nav.hbs.hbs"; isDirectory := false |}]);
    try reflexivity.
  - constructor.
  - repeat constructor. cbn. discriminate.
Defined.

(** ** Where the configs are looked for *)

Lemma removeFirst_appended pat d :
  startsIn pat d = false →
  Str.removeFirst pat pat = "" →
  Str.removeFirst pat (d +:+ pat) = d.
Proof.
  intros Hd Hpat. induction d as [|c d IH]; [done|].
  cbn [startsIn] in Hd. apply orb_false_iff in Hd as [Hp Hd].
  rewrite append_cons in *. cbn [Str.removeFirst]. rewrite Hp.
  by rewrite IH.
Qed.

(** X25. The configs are looked for beside the content file: for a page
    path [dir/index.html] in which no occurrence of [/index.html] begins
    inside [dir], the permission check tests [dir/post.yaml], the
    write-config is read from there, and the read-config from
    [dir/get.yaml]. *)
Theorem configs_are_beside_the_content fs dir :
  startsIn "/index.html" dir = false →
  pageDirOf (dir +:+ "/index.html") = dir
  ∧ isPostAllowed fs (dir +:+ "/index.html") = Deno_stat fs (dir +:+ "/post.yaml")
  ∧ loadPostYaml fs (dir +:+ "/index.html")
    = Deno_readTextFile fs (dir +:+ "/post.yaml")
  ∧ (∀ path m pageContent yamlContent ps,
       findPageWithParams fs path = Some m →
       pagePath m = dir +:+ "/index.html" →
       result (fetchPage fs path) = Ok (Found pageContent yamlContent ps) →
       yamlContent = Deno_readTextFile fs (dir +:+ "/get.yaml")).
Proof.
  intros Hd.
  assert (pageDirOf (dir +:+ "/index.html") = dir) as Hdir
    by (by apply removeFirst_appended).
  unfold isPostAllowed, loadPostYaml. rewrite Hdir. repeat split.
  intros path m pageContent yamlContent ps Hf Hp. rewrite result_fetchPage, Hf, Hp, Hdir.
  destruct (Deno_readTextFile fs (dir +:+ "/index.html")); [|done].
  by intros [= _ <- _].
Qed.

Lemma configs_are_beside_the_content_witness :
  isPostAllowed formTree "./pages/form/index.html"
  = Deno_stat formTree "./pages/form/post.yaml".
Proof.
  exact (proj1 (proj2 (configs_are_beside_the_content formTree "./pages/form"
                         eq_refl))).
Defined.

(** Where a directory on the way is called [index.html] the first
    occurrence is the one removed, and the configs are looked for
    elsewhere: the page has a write-config and POST is refused. *)
Example directory_named_index_html :
  findPageWithParams shadowTree "index.html/docs"
    = Some {| pagePath := "./pages/index.html/docs/index.html"; params := ∅ |}
  ∧ Deno_stat shadowTree "./pages/index.html/docs/post.yaml" = true
  ∧ pageDirOf "./pages/index.html/docs/index.html" = "./pages/docs/index.html"
  ∧ isPostAllowed shadowTree "./pages/index.html/docs/index.html" = false.
Proof. repeat split; reflexivity. Qed.

(** ** An entry that is no operation *)

Lemma fetchEach_nullish context ds before after results results' :
  result (fetchEach before context ds results) = Ok results' →
  result (fetchEach (before ++ VNull :: after) context ds results)
  = Throw (TypeError "Cannot read properties of null (reading 'type')").
Proof. intros Hb. by rewrite result_fetchEach_app, Hb. Qed.

(** X26. One [null] entry in the list of operations (an empty list item
    in the document) costs the whole document: once the operations before
    it have run, the dispatch throws, and the read pipeline returns the
    context alone, without the document's fields and without the results
    already collected. *)
Theorem null_operation_discards_the_document P text params query ds expanded doc
    before after results :
  Str.nonempty text = true →
  handlebars P text (VObj (readContext params query)) = Returns expanded →
  yaml_parse P expanded = Returns doc →
  result (get_prop doc "fetch_data") = Ok (VArr (before ++ VNull :: after)) →
  result (fetchEach before (VObj (readContext params query)) ds ∅) = Ok results →
  result (fetchData P (Some text) params query ds)
  = Ok (VObj (readContext params query)).
Proof.
  intros Ht Hh Hy Hg Hb. rewrite (fetchData_run P _ text) by done.
  unfold fetchDataOutcome. rewrite Hh, Hy, Hg. cbn [truthy].
  unfold fetchDataStrategies. cbn [truthy negb].
  by rewrite (fetchEach_nullish _ _ _ _ _ _ Hb).
Qed.

Lemma null_operation_discards_the_document_witness :
  result (fetchData listPlatform (Some listText) sampleParams (VObj ∅)
            mockDataStrategies)
  = Ok (VObj (readContext sampleParams (VObj ∅))).
Proof.
  exact (null_operation_discards_the_document listPlatform listText sampleParams
           (VObj ∅) mockDataStrategies listText
           (VObj (<["fetch_data" := VArr [operation "test" "a" "first"; VNull]]>
                    {["name" := VStr "Test"]}))
           [operation "test" "a" "first"] [] {["a" := testResult "first"]}
           eq_refl eq_refl eq_refl eq_refl eq_refl).
Defined.

(** ** What a request contributes *)


